(** * Edalize backends: Radiant, Verilator and the EdaCommands writer

    A shallow embedding of [edalize/utils.py], [edalize/radiant.py] and
    [edalize/verilator.py].  The Python methods are imperative: they mutate
    [self], write files through a handle opened by [with open(..., "w")], log
    through [logger] and spawn processes through [_run_tool].  They are
    embedded as computations in a state-and-exception monad; a raised
    exception keeps every effect that happened before it, as in Python. *)

From Stdlib Require Import String Ascii List Lia Bool.
From stdpp Require Import gmap strings list fin_maps.

Open Scope string_scope.
Open Scope list_scope.

(** ** Python strings and values *)

Module Py.

Definition LF : ascii := "010"%char.
Definition TAB : ascii := "009"%char.
Definition nl : string := String LF "".
Definition tab : string := String TAB "".
Definition dquote : string := String "034"%char "".

(** [sep.join(l)] *)
Definition join (sep : string) (l : list string) : string := String.concat sep l.

(** [s.startswith(p)] *)
Definition startswith (s p : string) : bool := String.prefix p s.

(** [s.endswith("/")], as [posixpath.join] asks it. *)
Fixpoint endswith_char (c : ascii) (s : string) : bool :=
  match s with
  | "" => false
  | String a "" => Ascii.eqb a c
  | String _ s' => endswith_char c s'
  end.

(** [s.replace(a, b)] for single characters. *)
Fixpoint replace_char (a b : ascii) (s : string) : string :=
  match s with
  | "" => ""
  | String c s' => String (if Ascii.eqb c a then b else c) (replace_char a b s')
  end.

(** [s.lower()] on the ASCII letters; every other byte is kept. *)
Definition lower_char (c : ascii) : ascii :=
  let n := nat_of_ascii c in
  if (65 <=? n)%nat && (n <=? 90)%nat then ascii_of_nat (n + 32) else c.

Fixpoint lower (s : string) : string :=
  match s with
  | "" => ""
  | String c s' => String (lower_char c) (lower s')
  end.

(** Truth value of a string and of a list. *)
Definition truthy (s : string) : bool := negb (String.eqb s "").
Definition nonempty {A} (l : list A) : bool :=
  match l with [] => false | _ :: _ => true end.

(** [x in l] for strings. *)
Definition str_in (x : string) (l : list string) : bool :=
  existsb (String.eqb x) l.

(** [s.split("\n")] *)
Fixpoint split_lines (s : string) : list string :=
  match s with
  | "" => [""]
  | String c s' =>
      if Ascii.eqb c LF then "" :: split_lines s'
      else match split_lines s' with
           | l :: ls => String c l :: ls
           | [] => [String c ""]
           end
  end.

(** [sub in s] *)
Fixpoint contains (sub s : string) : bool :=
  String.prefix sub s ||
  match s with
  | "" => false
  | String _ s' => contains sub s'
  end.

(** [posixpath.join(a, b)] *)
Definition os_path_join (a b : string) : string :=
  if startswith b "/" then b
  else if negb (truthy a) || endswith_char "/" a then a +:+ b
  else a +:+ "/" +:+ b.

(** Exceptions the modelled code raises. *)
Inductive PyError :=
| RuntimeError (msg : string)
| AttributeError (msg : string)
| KeyError (key : string)
| CalledProcessError (cmd : string) (args : list string).

Inductive outcome (A : Type) :=
| Ok (a : A)
| Raise (e : PyError).
Arguments Ok {A} a.
Arguments Raise {A} e.

Inductive Level := INFO | WARNING.

(** The world around one object of type [Obj]: the object itself (its
    attributes are mutable), the files on disk as the list of chunks written
    since the file was opened for writing, the handle [f] of the enclosing
    [with open(...)] block, the log and the processes spawned so far. *)
Record St (Obj : Type) := mkSt {
  self : Obj;
  files : gmap string (list string);
  fh : list string;
  logs : list (Level * string);
  procs : list (string * list string)
}.
Arguments mkSt {Obj}.
Arguments self {Obj}.
Arguments files {Obj}.
Arguments fh {Obj}.
Arguments logs {Obj}.
Arguments procs {Obj}.

Definition M (Obj A : Type) : Type := St Obj -> outcome A * St Obj.

Definition ret {Obj A} (a : A) : M Obj A := fun st => (Ok a, st).

Definition bind {Obj A B} (m : M Obj A) (k : A -> M Obj B) : M Obj B :=
  fun st =>
    match m st with
    | (Ok a, st') => k a st'
    | (Raise e, st') => (Raise e, st')
    end.

Definition raise {Obj A} (e : PyError) : M Obj A := fun st => (Raise e, st).

Definition get_self {Obj} : M Obj Obj := fun st => (Ok (self st), st).

Definition put_self {Obj} (o : Obj) : M Obj unit :=
  fun st => (Ok tt, mkSt o (files st) (fh st) (logs st) (procs st)).

Definition logger (lvl : Level) (msg : string) {Obj} : M Obj unit :=
  fun st => (Ok tt, mkSt (self st) (files st) (fh st) (logs st ++ [(lvl, msg)]) (procs st)).

(** [f.write(s)] on the handle of the enclosing [with] block. *)
Definition f_write {Obj} (s : string) : M Obj unit :=
  fun st => (Ok tt, mkSt (self st) (files st) (fh st ++ [s]) (logs st) (procs st)).

(** [with open(path, "w") as f: body].  Opening truncates (or creates) the
    file; leaving the block, normally or through an exception, closes the
    handle, and the file then holds what was written. *)
Definition with_open_w {Obj A} (path : string) (body : M Obj A) : M Obj A :=
  fun st =>
    let st0 := mkSt (self st) (<[path := []]> (files st)) [] (logs st) (procs st) in
    match body st0 with
    | (r, st1) =>
        (r, mkSt (self st1) (<[path := fh st1]> (files st1)) (fh st) (logs st1) (procs st1))
    end.

(** [for x in l: body x] *)
Fixpoint for_each {Obj A} (l : list A) (body : A -> M Obj unit) : M Obj unit :=
  match l with
  | [] => ret tt
  | x :: l' => bind (body x) (fun _ => for_each l' body)
  end.

(** What a file holds: its chunks, concatenated. *)
Definition content {Obj} (st : St Obj) (path : string) : option string :=
  match files st !! path with
  | Some chunks => Some (String.concat "" chunks)
  | None => None
  end.

End Py.

Import Py.

Declare Scope py_scope.
Delimit Scope py_scope with py.
Notation "x <- m ;; k" := (bind m (fun x => k))
  (at level 100, m at next level, right associativity) : py_scope.
Notation "m ;;; k" := (bind m (fun _ => k))
  (at level 100, right associativity) : py_scope.

(** ** edalize/utils.py: EdaCommands *)

Module Utils.

Record Command := mkCommand {
  command : list string;
  targets : list string;
  depends : list string;
  order_only_deps : list string
}.

(** [default_target] is assigned by [set_default_target] only: [__init__]
    does not create the attribute, and [None] here is the attribute not
    being there. *)
Record EdaCommands := mkEdaCommands {
  commands : list Command;
  header : string;
  default_target : option string
}.

Definition init : EdaCommands :=
  mkEdaCommands [] ("#Auto generated by Edalize" +:+ nl +:+ nl) None.

Definition add (cmd tgts deps : list string) (oo : list string) (ec : EdaCommands)
  : EdaCommands :=
  mkEdaCommands (commands ec ++ [mkCommand cmd tgts deps oo]) (header ec) (default_target ec).

Definition set_default_target (target : string) (ec : EdaCommands) : EdaCommands :=
  mkEdaCommands (commands ec) (header ec) (Some target).

(** The commands of a list, added one after the other. *)
Definition add_all (cs : list Command) (ec : EdaCommands) : EdaCommands :=
  fold_left (fun e c => add (command c) (targets c) (depends c) (order_only_deps c) e) cs ec.

Definition write_command (c : Command) : M EdaCommands unit :=
  (f_write (nl +:+ join " " (targets c) +:+ ":") ;;;
   for_each (depends c) (fun d => f_write (" " +:+ d)) ;;;
   (if nonempty (order_only_deps c)
    then f_write " |" ;;; for_each (order_only_deps c) (fun d => f_write (" " +:+ d))
    else ret tt) ;;;
   f_write nl ;;;
   if nonempty (command c)
   then f_write (tab +:+ "$(EDALIZE_LAUNCHER) " +:+ join " " (command c) +:+ nl)
   else ret tt)%py.

Definition write (outfile : string) : M EdaCommands unit :=
  (ec <- get_self ;;
   with_open_w outfile
     (f_write (header ec) ;;;
      match default_target ec with
      | None => raise (AttributeError "'EdaCommands' object has no attribute 'default_target'")
      | Some t =>
          if negb (truthy t)
          then raise (RuntimeError "Internal Edalize error. Missing default target")
          else
            f_write ("all: " +:+ t +:+ nl) ;;;
            for_each (commands ec) write_command
      end))%py.

(** Reading a build file back: the text after ["all: "] on the first line
    that starts with it. *)
Definition strip_prefix (p s : string) : option string :=
  if String.prefix p s
  then Some (String.substring (String.length p) (String.length s - String.length p) s)
  else None.

Fixpoint first_all_line (ls : list string) : option string :=
  match ls with
  | [] => None
  | l :: ls' =>
      match strip_prefix "all: " l with
      | Some t => Some t
      | None => first_all_line ls'
      end
  end.

Definition parse_all_target (text : string) : option string :=
  first_all_line (split_lines text).

End Utils.

(** ** What the backends share (edalize/edatool.py is not part of the sources) *)

(** A source file as [_get_fileset_files] hands it to a backend. *)
Module File.
Record t := mk {
  name : string;
  file_type : string;
  logical_name : string
}.
End File.

Module Edatool.

(** A scalar tool option: [get_doc] declares these as String or bool. *)
Inductive Scalar :=
| SStr (s : string)
| SBool (b : bool).

(** [self.tool_options] is one Python dict.  [get_doc] declares its members
    (scalars) and its lists (lists of strings) under disjoint keys; the dict
    is modelled as the pair of these two finite maps. *)
Record ToolOptions := mkToolOptions {
  members : gmap string Scalar;
  lists : gmap string (list string)
}.

(** [str(x)] and ["{}".format(x)] of a scalar option. *)
Definition py_str (v : Scalar) : string :=
  match v with
  | SStr s => s
  | SBool true => "True"
  | SBool false => "False"
  end.

(** [str(d.get(k))]: an absent key reads as [None]. *)
Definition str_get (m : gmap string Scalar) (k : string) : string :=
  match m !! k with
  | Some v => py_str v
  | None => "None"
  end.

(** [x == s] for a scalar [x] and a string [s]. *)
Definition scalar_eq_str (v : Scalar) (s : string) : bool :=
  match v with
  | SStr x => String.eqb x s
  | SBool _ => false
  end.

(** [x in l] for a scalar [x] and a list of strings. *)
Definition scalar_in (v : Scalar) (l : list string) : bool :=
  existsb (scalar_eq_str v) l.

Section RunTool.
Context {Obj : Type}.

(** Which invocations exit with zero. *)
Variable tool_ok : string -> list string -> bool.

(** Modelled from the spec: [Edatool._run_tool] is not part of the sources.
    The process runner [run(tool_name, argument_list, quiet_flag)] spawns
    the process and "signals failure by raising/propagating on non-zero
    external exit". *)
Definition _run_tool (cmd : string) (args : list string) : M Obj unit :=
  fun st =>
    let st' := mkSt (self st) (files st) (fh st) (logs st) (procs st ++ [(cmd, args)]) in
    if tool_ok cmd args then (Ok tt, st') else (Raise (CalledProcessError cmd args), st').
End RunTool.

End Edatool.

Import Edatool.

(** ** edalize/radiant.py *)

Module Radiant.

Section Backend.

(** The values of [generic], [vlogdefine] and [vlogparam], and how Python
    formats them with ["{}".format]. *)
Variable Value : Type.
Variable fmt : Value -> string.

(** [Edatool._param_value_str(value, str_quote_style)], not part of the
    sources. *)
Variable _param_value_str : Value -> string -> string.

(** [edalize.utils.get_file_type], imported by radiant.py and not part of
    the sources. *)
Variable get_file_type : File.t -> string.

(** [src_files] and [incdirs] are what [self._get_fileset_files()] returns. *)
Record Radiant := mkRadiant {
  name : string;
  work_root : string;
  toplevel : string;
  tool_options : ToolOptions;
  generic : list (string * Value);
  vlogdefine : list (string * Value);
  vlogparam : list (string * Value);
  src_files : list File.t;
  incdirs : list string
}.

Definition _work_source (f : File.t) : string :=
  if truthy (File.logical_name f)
  then " -work " +:+ File.logical_name f
  else " -work " +:+ "work".

Definition file_types : list (string * string) :=
  [ ("verilogSource", "prj_add_source ");
    ("systemVerilogSource", "prj_add_source ");
    ("vhdlSource", "prj_add_source ");
    ("PDC", "prj_add_source ");
    ("SDC", "prj_add_source ") ].

(** [d[k]] guarded by [k in d], for a dict literal. *)
Fixpoint dict_get (d : list (string * string)) (k : string) : option string :=
  match d with
  | [] => None
  | (k', v) :: d' => if String.eqb k k' then Some v else dict_get d' k
  end.

Definition src_file_filter (f : File.t) : M Radiant string :=
  let _file_type := get_file_type f in
  match dict_get file_types _file_type with
  | Some directive => ret (directive +:+ File.name f +:+ _work_source f)
  | None =>
      if String.eqb _file_type "tclSource" then ret ("source " +:+ File.name f)
      else if str_in _file_type ["user"; "LPF"] then ret ""
      else
        (logger WARNING
           (File.name f +:+ " has unknown file type '" +:+ File.file_type f +:+ "'") ;;;
         ret "")%py
  end.

(** The first loop of [configure_main]; [pdc_file] is its local variable. *)
Definition pdc_truthy (pdc_file : option string) : bool :=
  match pdc_file with
  | Some s => truthy s
  | None => false
  end.

Fixpoint pdc_loop (l : list File.t) (pdc_file : option string)
  : M Radiant (option string) :=
  match l with
  | [] => ret pdc_file
  | f :: l' =>
      if String.eqb (File.file_type f) "PDC" then
        if pdc_truthy pdc_file then
          (logger WARNING "Multiple PDC files detected. Only the first one will be used" ;;;
           pdc_loop l' pdc_file)%py
        else pdc_loop l' (Some (File.name f))
      else pdc_loop l' pdc_file
  end.

Definition TCL_TEMPLATE (prj_name part top : string) : string :=
  "#Generated by Edalize" +:+ nl +:+
  "prj_create -name " +:+ prj_name +:+ " -impl " +:+ dquote +:+ "impl" +:+ dquote
    +:+ " -dev " +:+ part +:+ nl +:+
  "prj_set_impl_opt top " +:+ top +:+ nl.

Definition RUN_TEMPLATE (prj_name : string) : string :=
  "#Generated by Edalize" +:+ nl +:+
  "prj_open " +:+ prj_name +:+ ".rdf" +:+ nl +:+
  "prj_run Synthesis -impl impl -forceOne" +:+ nl +:+
  "prj_run Map -impl impl" +:+ nl +:+
  "prj_run PAR -impl impl" +:+ nl +:+
  "prj_run Export -impl impl -task Bitgen" +:+ nl +:+
  "prj_save" +:+ nl +:+
  "prj_close" +:+ nl.

Definition HDL_PARAM : string := "prj_set_impl_opt HDL_PARAM {".
Definition VERILOG_DIRECTIVES : string := "prj_set_impl_opt VERILOG_DIRECTIVES {".

(** [self.tool_options["part"]] *)
Definition part_option : M Radiant Scalar :=
  (s <- get_self ;;
   match members (tool_options s) !! "part" with
   | Some v => ret v
   | None => raise (KeyError "part")
   end)%py.

(** The body of the loop over [src_files] that writes the source lines. *)
Definition write_source (src_file : File.t) : M Radiant unit :=
  (_s <- src_file_filter src_file ;;
   if truthy _s then f_write (_s +:+ nl) else ret tt)%py.

Definition configure_main : M Radiant unit :=
  (s <- get_self ;;
   let prj_name := replace_char "." "_" (name s) in
   pdc_file <- pdc_loop (src_files s) None ;;
   with_open_w (os_path_join (work_root s) (name s +:+ ".tcl"))
     (part <- part_option ;;
      f_write (TCL_TEMPLATE prj_name (py_str part) (toplevel s)) ;;;
      (if nonempty (incdirs s)
       then f_write ("prj_set_impl_opt {include path} {" +:+ join " " (incdirs s)
                     +:+ "}" +:+ nl)
       else ret tt) ;;;
      (if nonempty (generic s)
       then
         f_write HDL_PARAM ;;;
         f_write (join ";" (map (fun kv => fst kv +:+ "=" +:+ fmt (snd kv)) (generic s))) ;;;
         f_write ("}" +:+ nl)
       else ret tt) ;;;
      (if nonempty (vlogparam s)
       then
         f_write HDL_PARAM ;;;
         f_write (join ";" (map (fun kv => fst kv +:+ "=" +:+
                                           _param_value_str (snd kv) dquote)
                                (vlogparam s))) ;;;
         f_write ("}" +:+ nl)
       else ret tt) ;;;
      (if nonempty (vlogdefine s)
       then
         f_write VERILOG_DIRECTIVES ;;;
         f_write (join ";" (map (fun kv => fst kv +:+ "=" +:+ fmt (snd kv)) (vlogdefine s))) ;;;
         f_write ("}" +:+ nl)
       else ret tt) ;;;
      for_each (src_files s) write_source ;;;
      f_write ("prj_save" +:+ nl +:+ "prj_close" +:+ nl)) ;;;
   with_open_w (os_path_join (work_root s) (name s +:+ "_run.tcl"))
     (f_write (RUN_TEMPLATE prj_name)))%py.

Section Tools.

Variable tool_ok : string -> list string -> bool.

Definition build_main : M Radiant unit :=
  (s <- get_self ;;
   _run_tool tool_ok "radiantc" [name s +:+ ".tcl"] ;;;
   _run_tool tool_ok "radiantc" [name s +:+ "_run.tcl"])%py.

Definition run_main : M Radiant unit := ret tt.

End Tools.

End Backend.

Arguments mkRadiant {Value}.
Arguments name {Value}.
Arguments work_root {Value}.
Arguments toplevel {Value}.
Arguments tool_options {Value}.
Arguments generic {Value}.
Arguments vlogdefine {Value}.
Arguments vlogparam {Value}.
Arguments src_files {Value}.
Arguments incdirs {Value}.

(** Where [configure_main] writes the project script and the run script. *)
Definition script_path {Value} (s : Radiant Value) : string :=
  os_path_join (work_root s) (name s +:+ ".tcl").
Definition run_script_path {Value} (s : Radiant Value) : string :=
  os_path_join (work_root s) (name s +:+ "_run.tcl").

End Radiant.

(** ** edalize/verilator.py *)

Module Verilator.

Definition CONFIG_MK_TEMPLATE (top_module vc_file verilator_options make_options : string)
  : string :=
  "#Auto generated by Edalize" +:+ nl +:+
  nl +:+
  "TOP_MODULE        := " +:+ top_module +:+ nl +:+
  "VC_FILE           := " +:+ vc_file +:+ nl +:+
  "VERILATOR_OPTIONS := " +:+ verilator_options +:+ nl +:+
  "MAKE_OPTIONS      := " +:+ make_options +:+ nl.

Definition MAKEFILE_TEMPLATE : string :=
  join nl
    [ "#Auto generated by Edalize";
      "";
      "include config.mk";
      "";
      "#Assume a local installation if VERILATOR_ROOT is set";
      "ifeq ($(VERILATOR_ROOT),)";
      "VERILATOR ?= verilator";
      "else";
      "VERILATOR ?= $(VERILATOR_ROOT)/bin/verilator";
      "endif";
      "";
      "V$(TOP_MODULE): V$(TOP_MODULE).mk";
      tab +:+ "$(MAKE) $(MAKE_OPTIONS) -f $<";
      "V$(TOP_MODULE).mk:";
      tab +:+ "$(EDALIZE_LAUNCHER) $(VERILATOR) -f $(VC_FILE) $(VERILATOR_OPTIONS)";
      "";
      ".PHONY: binary dpi-hdr-only lint-only preprocess-only xml-only";
      "binary:";
      tab +:+ "$(EDALIZE_LAUNCHER) $(VERILATOR) --binary -f $(VC_FILE) $(VERILATOR_OPTIONS)";
      "dpi-hdr-only:";
      tab +:+ "$(EDALIZE_LAUNCHER) $(VERILATOR) --dpi-hdr-only -f $(VC_FILE) $(VERILATOR_OPTIONS)";
      "lint-only:";
      tab +:+ "$(EDALIZE_LAUNCHER) $(VERILATOR) --lint-only -f $(VC_FILE) $(VERILATOR_OPTIONS)";
      "preprocess-only V$(TOP_MODULE).i:";
      tab +:+ "$(EDALIZE_LAUNCHER) $(VERILATOR) -E -f $(VC_FILE) $(VERILATOR_OPTIONS) > V$(TOP_MODULE).i";
      "xml-only V$(TOP_MODULE).xml:";
      tab +:+ "$(EDALIZE_LAUNCHER) $(VERILATOR) --xml-only -f $(VC_FILE) $(VERILATOR_OPTIONS)";
      "" ].

Definition modes : list string :=
  [ "binary"; "cc"; "dpi-hdr-only"; "lint-only"; "none"; "preprocess-only"; "sc"; "xml-only" ].

Definition DEPRECATED : string :=
  "This backend is deprecated and will eventually be removed. Please migrate to the flow API instead.  See https://edalize.readthedocs.io/en/latest/ref/migrations.html#migrating-from-the-tool-api-to-the-flow-api for more details.".

Definition CLI_PARSER_DEPRECATED : string :=
  "The cli_parser argument is deprecated. Use run_options to pass raw arguments to verilated models".

Section Backend.

(** The values of [vlogparam], [vlogdefine], [plusarg] and [cmdlinearg]. *)
Variable Value : Type.

(** [Edatool._param_value_str(value, str_quote_style)], not part of the
    sources. *)
Variable _param_value_str : Value -> string -> string.

(** Which invocations of [_run_tool] exit with zero. *)
Variable tool_ok : string -> list string -> bool.

(** [src_files] and [incdirs] are what
    [self._get_fileset_files(force_slash=True)] returns; [args] and
    [verilator_file] are attributes the methods assign.  [tool_options] is
    the dict the caller supplied: the methods assign items of that object in
    place, and the state carries the one object from pass to pass. *)
Record Verilator := mkVerilator {
  name : string;
  work_root : string;
  toplevel : string;
  tool_options : ToolOptions;
  vlogparam : list (string * Value);
  vlogdefine : list (string * Value);
  plusarg : list (string * Value);
  cmdlinearg : list (string * Value);
  src_files : list File.t;
  incdirs : list string;
  args : list string;
  verilator_file : option string
}.

Definition set_tool_options (o : ToolOptions) (s : Verilator) : Verilator :=
  mkVerilator (name s) (work_root s) (toplevel s) o (vlogparam s) (vlogdefine s)
    (plusarg s) (cmdlinearg s) (src_files s) (incdirs s) (args s) (verilator_file s).

Definition set_args (a : list string) (s : Verilator) : Verilator :=
  mkVerilator (name s) (work_root s) (toplevel s) (tool_options s) (vlogparam s)
    (vlogdefine s) (plusarg s) (cmdlinearg s) (src_files s) (incdirs s) a
    (verilator_file s).

Definition set_verilator_file (v : string) (s : Verilator) : Verilator :=
  mkVerilator (name s) (work_root s) (toplevel s) (tool_options s) (vlogparam s)
    (vlogdefine s) (plusarg s) (cmdlinearg s) (src_files s) (incdirs s) (args s)
    (Some v).

(** [self.tool_options["mode"] = "cc"] *)
Definition with_mode_cc (o : ToolOptions) : ToolOptions :=
  mkToolOptions (<["mode" := SStr "cc"]> (members o)) (lists o).

(** [if "mode" not in self.tool_options: self.tool_options["mode"] = "cc"] *)
Definition default_mode : M Verilator unit :=
  (s <- get_self ;;
   match members (tool_options s) !! "mode" with
   | None => put_self (set_tool_options (with_mode_cc (tool_options s)) s)
   | Some _ => ret tt
   end)%py.

(** [self.tool_options["mode"]] *)
Definition mode_option : M Verilator Scalar :=
  (s <- get_self ;;
   match members (tool_options s) !! "mode" with
   | Some v => ret v
   | None => raise (KeyError "mode")
   end)%py.

Definition illegal_mode (mode : Scalar) : PyError :=
  RuntimeError ("Illegal verilator mode " +:+ py_str mode +:+ ". Allowed values are "
                +:+ join ", " modes).

Definition check_managed_parser : M Verilator unit :=
  (s <- get_self ;;
   let managed :=
     match members (tool_options s) !! "cli_parser" with
     | None => true
     | Some v => scalar_eq_str v "managed"
     end in
   if negb managed then logger WARNING CLI_PARSER_DEPRECATED else ret tt)%py.

(** The loop of [_write_config_files] that sorts the source files into
    [vlt_files], [vlog_files] and [opt_c_files]. *)
Fixpoint sort_files (l : list File.t) (vlt vlog opt_c : list string)
  : list string * list string * list string :=
  match l with
  | [] => (vlt, vlog, opt_c)
  | src_file :: l' =>
      let ft := File.file_type src_file in
      if startswith ft "systemVerilogSource" || startswith ft "verilogSource"
      then sort_files l' vlt (vlog ++ [File.name src_file]) opt_c
      else if str_in ft ["cppSource"; "systemCSource"; "cSource"]
      then sort_files l' vlt vlog (opt_c ++ [File.name src_file])
      else if String.eqb ft "vlt"
      then sort_files l' (vlt ++ [File.name src_file]) vlog opt_c
      else if String.eqb ft "user"
      then sort_files l' vlt vlog opt_c
      else sort_files l' vlt vlog opt_c
  end.

(** The quote style of the [-G] lines: a backslash and a double quote. *)
Definition G_quote : string := "\" +:+ dquote.

(** The [with] block of [_write_config_files] from the library flags on:
    it reads the options and the file set and changes neither. *)
Definition write_vc_options (s : Verilator) : M Verilator unit :=
  (match lists (tool_options s) !! "libs" with
   | Some libs => for_each libs (fun lib => f_write ("-LDFLAGS " +:+ lib +:+ nl))
   | None => ret tt
   end ;;;
   for_each (incdirs s) (fun include_dir =>
     f_write ("+incdir+" +:+ include_dir +:+ nl) ;;;
     f_write ("-CFLAGS -I" +:+ include_dir +:+ nl)) ;;;
   let '(vlt_files, vlog_files, opt_c_files) := sort_files (src_files s) [] [] [] in
   (if nonempty vlt_files then f_write (join nl vlt_files +:+ nl) else ret tt) ;;;
   f_write (join nl vlog_files +:+ nl) ;;;
   f_write ("--top-module " +:+ toplevel s +:+ nl) ;;;
   (if negb (String.eqb (lower (str_get (members (tool_options s)) "exe")) "false")
    then f_write ("--exe" +:+ nl) else ret tt) ;;;
   f_write (join nl opt_c_files) ;;;
   f_write nl ;;;
   f_write (join "" (map (fun kv => "-G" +:+ fst kv +:+ "=" +:+
                                     _param_value_str (snd kv) G_quote +:+ nl)
                         (vlogparam s))) ;;;
   f_write (join "" (map (fun kv => "-D" +:+ fst kv +:+ "=" +:+
                                     _param_value_str (snd kv) "" +:+ nl)
                         (vlogdefine s))))%py.

(** The whole [with] block that writes the command file. *)
Definition write_vc : M Verilator unit :=
  (f_write ("--Mdir ." +:+ nl) ;;;
   default_mode ;;;
   mode <- mode_option ;;
   (if negb (scalar_in mode modes) then raise (illegal_mode mode) else ret tt) ;;;
   (if scalar_in mode ["cc"; "sc"] then f_write ("--" +:+ py_str mode +:+ nl) else ret tt) ;;;
   s <- get_self ;;
   write_vc_options s)%py.

Definition _write_config_files : M Verilator unit :=
  (s0 <- get_self ;;
   put_self (set_verilator_file (name s0 +:+ ".vc") s0) ;;;
   let vc := name s0 +:+ ".vc" in
   with_open_w (os_path_join (work_root s0) vc) write_vc ;;;
   with_open_w (os_path_join (work_root s0) "Makefile") (f_write MAKEFILE_TEMPLATE) ;;;
   s <- get_self ;;
   let verilator_options :=
     match lists (tool_options s) !! "verilator_options" with
     | Some l => join " " l
     | None => ""
     end in
   let make_options :=
     match lists (tool_options s) !! "make_options" with
     | Some l => join " " l
     | None => ""
     end in
   with_open_w (os_path_join (work_root s0) "config.mk")
     (f_write (CONFIG_MK_TEMPLATE (toplevel s) vc verilator_options make_options)))%py.

Definition configure_main : M Verilator unit :=
  (logger WARNING DEPRECATED ;;;
   check_managed_parser ;;;
   s <- get_self ;;
   (if negb (truthy (toplevel s))
    then raise (RuntimeError ("'" +:+ name s +:+ "' miss a mandatory parameter 'top_module'"))
    else ret tt) ;;;
   _write_config_files)%py.

(** [str(self.tool_options.get(k)).lower() == "true"] *)
Definition option_is_true (k : string) : M Verilator bool :=
  (s <- get_self ;;
   ret (String.eqb (lower (str_get (members (tool_options s)) k)) "true"))%py.

Definition build_main : M Verilator unit :=
  (logger INFO "Building simulation model" ;;;
   default_mode ;;;
   mode <- mode_option ;;
   (if negb (scalar_in mode modes) then raise (illegal_mode mode) else ret tt) ;;;
   let args :=
     if scalar_in mode ["binary"; "dpi-hdr-only"; "lint-only"; "preprocess-only"; "xml-only"]
     then [py_str mode] else [] in
   (if negb (scalar_eq_str mode "none") then _run_tool tool_ok "make" args else ret tt) ;;;
   gen_xml <- option_is_true "gen-xml" ;;
   (if gen_xml then _run_tool tool_ok "make" ["xml-only"] else ret tt) ;;;
   gen_dpi_hdr <- option_is_true "gen-dpi-hdr" ;;
   (if gen_dpi_hdr then _run_tool tool_ok "make" ["dpi-hdr-only"] else ret tt) ;;;
   gen_preprocess <- option_is_true "gen-preprocess" ;;
   (if gen_preprocess then _run_tool tool_ok "make" ["preprocess-only"] else ret tt))%py.

(** [self.args += l] *)
Definition args_extend (l : list string) : M Verilator unit :=
  (s <- get_self ;; put_self (set_args (args s ++ l) s))%py.

Definition run_main : M Verilator unit :=
  (check_managed_parser ;;;
   s <- get_self ;;
   put_self (set_args [] s) ;;;
   for_each (plusarg s) (fun kv =>
     args_extend ["+" +:+ fst kv +:+ "=" +:+ _param_value_str (snd kv) ""]) ;;;
   for_each (cmdlinearg s) (fun kv =>
     args_extend ["--" +:+ fst kv +:+ "=" +:+ _param_value_str (snd kv) ""]) ;;;
   args_extend (default [] (lists (tool_options s) !! "run_options")) ;;;
   default_mode ;;;
   mode <- mode_option ;;
   if scalar_in mode ["dpi-hdr-only"; "lint-only"; "preprocess-only"; "xml-only"]
   then ret tt
   else
     logger INFO "Running simulation" ;;;
     s' <- get_self ;;
     _run_tool tool_ok ("./V" +:+ toplevel s') (args s'))%py.

End Backend.

Arguments mkVerilator {Value}.
Arguments name {Value}.
Arguments work_root {Value}.
Arguments toplevel {Value}.
Arguments tool_options {Value}.
Arguments vlogparam {Value}.
Arguments vlogdefine {Value}.
Arguments plusarg {Value}.
Arguments cmdlinearg {Value}.
Arguments src_files {Value}.
Arguments incdirs {Value}.
Arguments args {Value}.
Arguments verilator_file {Value}.
Arguments set_tool_options {Value}.
Arguments set_args {Value}.
Arguments set_verilator_file {Value}.

(** Where [_write_config_files] writes the command file, the build file and
    the variables file. *)
Definition vc_path {Value} (s : Verilator Value) : string :=
  os_path_join (work_root s) (name s +:+ ".vc").
Definition makefile_path {Value} (s : Verilator Value) : string :=
  os_path_join (work_root s) "Makefile".
Definition config_mk_path {Value} (s : Verilator Value) : string :=
  os_path_join (work_root s) "config.mk".

End Verilator.

(** * Descriptions

    The functions and predicates the properties are stated with: what a
    method writes, logs and spawns, as plain functions of its inputs. *)

(** [c in s] for a character. *)
Fixpoint has_char (c : ascii) (s : string) : bool :=
  match s with
  | "" => false
  | String a s' => Ascii.eqb a c || has_char c s'
  end.

(** [x] holds no line feed. *)
Definition one_line (x : string) : bool := negb (has_char LF x).

Section Effects.
Context {Obj : Type}.

(** [st] after more chunks went to the open handle and more records to
    the log. *)
Definition wrote_logged (st : St Obj) (chunks : list string)
    (lg : list (Level * string)) : St Obj :=
  mkSt (self st) (files st) (fh st ++ chunks) (logs st ++ lg) (procs st).

(** A computation that always succeeds, writes the chunks [c] and logs the
    records [l], whatever the state. *)
Definition emits (m : M Obj unit) (c : list string) (l : list (Level * string)) : Prop :=
  forall st, m st = (Ok tt, wrote_logged st c l).

(** [st] after more chunks went to the open handle. *)
Definition wrote (st : St Obj) (chunks : list string) : St Obj :=
  mkSt (self st) (files st) (fh st ++ chunks) (logs st) (procs st).

(** A computation that always succeeds and only writes the chunks [c]. *)
Definition writes (m : M Obj unit) (c : list string) : Prop :=
  forall st, m st = (Ok tt, wrote st c).

End Effects.

Module UtilsSpec.
Import Utils.

(** What [write] writes for one command. *)
Definition command_chunks (c : Command) : list string :=
  [nl +:+ join " " (targets c) +:+ ":"]
  ++ map (fun d => " " +:+ d) (depends c)
  ++ (if nonempty (order_only_deps c)
      then " |" :: map (fun d => " " +:+ d) (order_only_deps c) else [])
  ++ [nl]
  ++ (if nonempty (command c)
      then [tab +:+ "$(EDALIZE_LAUNCHER) " +:+ join " " (command c) +:+ nl] else []).

(** The default target read back from the file [write] produced. *)
Definition read_back (outfile : string) (st : St EdaCommands) : option string :=
  match content st outfile with
  | Some text => parse_all_target text
  | None => None
  end.

End UtilsSpec.

Module RadiantSpec.
Import Radiant.

Section Spec.
Variable Value : Type.
Variable fmt : Value -> string.
Variable _param_value_str : Value -> string -> string.
Variable get_file_type : File.t -> string.

Abbreviation Radiant := (Radiant Value).

(** What [src_file_filter] returns and what it logs. *)
Definition filter_line (f : File.t) : string :=
  let ft := get_file_type f in
  match dict_get file_types ft with
  | Some directive => directive +:+ File.name f +:+ _work_source f
  | None => if String.eqb ft "tclSource" then "source " +:+ File.name f else ""
  end.

Definition filter_log (f : File.t) : list (Level * string) :=
  let ft := get_file_type f in
  match dict_get file_types ft with
  | Some _ => []
  | None =>
      if String.eqb ft "tclSource" then []
      else if str_in ft ["user"; "LPF"] then []
      else [(WARNING, File.name f +:+ " has unknown file type '" +:+ File.file_type f +:+ "'")]
  end.

Definition source_chunks (f : File.t) : list string :=
  if truthy (filter_line f) then [filter_line f +:+ nl] else [].

(** The warnings of the first loop of [configure_main]. *)
Fixpoint pdc_warnings (l : list File.t) (pdc_file : option string)
  : list (Level * string) :=
  match l with
  | [] => []
  | f :: l' =>
      if String.eqb (File.file_type f) "PDC" then
        if pdc_truthy pdc_file
        then (WARNING, "Multiple PDC files detected. Only the first one will be used")
               :: pdc_warnings l' pdc_file
        else pdc_warnings l' (Some (File.name f))
      else pdc_warnings l' pdc_file
  end.

Definition kv_list (show : Value -> string) (d : list (string * Value)) : string :=
  join ";" (map (fun kv => fst kv +:+ "=" +:+ show (snd kv)) d).

(** The chunks of the project script between the template and the source
    lines. *)
Definition incdir_chunks (s : Radiant) : list string :=
  if nonempty (incdirs s)
  then ["prj_set_impl_opt {include path} {" +:+ join " " (incdirs s) +:+ "}" +:+ nl]
  else [].

Definition generic_chunks (s : Radiant) : list string :=
  if nonempty (generic s) then [HDL_PARAM; kv_list fmt (generic s); "}" +:+ nl] else [].

Definition vlogparam_chunks (s : Radiant) : list string :=
  if nonempty (vlogparam s)
  then [HDL_PARAM; kv_list (fun v => _param_value_str v dquote) (vlogparam s); "}" +:+ nl]
  else [].

Definition vlogdefine_chunks (s : Radiant) : list string :=
  if nonempty (vlogdefine s)
  then [VERILOG_DIRECTIVES; kv_list fmt (vlogdefine s); "}" +:+ nl] else [].

Definition script_chunks (s : Radiant) (part : Scalar) : list string :=
  [TCL_TEMPLATE (replace_char "." "_" (name s)) (py_str part) (toplevel s)]
  ++ incdir_chunks s ++ generic_chunks s ++ vlogparam_chunks s ++ vlogdefine_chunks s
  ++ flat_map source_chunks (src_files s)
  ++ ["prj_save" +:+ nl +:+ "prj_close" +:+ nl].

(** The project script line by line. *)
Definition kv_one_line (show : Value -> string) (d : list (string * Value)) : bool :=
  forallb (fun kv => one_line (fst kv) && one_line (show (snd kv))) d.

(** No text the caller gives holds a line feed. *)
Definition single_lines (s : Radiant) (part : Scalar) : bool :=
  one_line (name s) && one_line (py_str part) && one_line (toplevel s)
  && forallb one_line (incdirs s)
  && kv_one_line fmt (generic s)
  && kv_one_line (fun v => _param_value_str v dquote) (vlogparam s)
  && kv_one_line fmt (vlogdefine s)
  && forallb (fun f => one_line (File.name f) && one_line (File.logical_name f)) (src_files s).

(** The lines of the project script before the parameter blocks and after
    them. *)
Definition head_lines (s : Radiant) (part : Scalar) : list string :=
  ["#Generated by Edalize";
   "prj_create -name " +:+ replace_char "." "_" (name s) +:+ " -impl " +:+ dquote
     +:+ "impl" +:+ dquote +:+ " -dev " +:+ py_str part;
   "prj_set_impl_opt top " +:+ toplevel s]
  ++ (if nonempty (incdirs s)
      then ["prj_set_impl_opt {include path} {" +:+ join " " (incdirs s) +:+ "}"] else []).

Definition tail_lines (s : Radiant) : list string :=
  List.filter truthy (map filter_line (src_files s)) ++ ["prj_save"; "prj_close"].

(** The lines of the whole script. *)
Definition script_lines (s : Radiant) (part : Scalar) : list string :=
  head_lines s part
  ++ (if nonempty (generic s) then [HDL_PARAM +:+ kv_list fmt (generic s) +:+ "}"] else [])
  ++ (if nonempty (vlogparam s)
      then [HDL_PARAM +:+ kv_list (fun v => _param_value_str v dquote) (vlogparam s) +:+ "}"]
      else [])
  ++ (if nonempty (vlogdefine s)
      then [VERILOG_DIRECTIVES +:+ kv_list fmt (vlogdefine s) +:+ "}"] else [])
  ++ tail_lines s.

(** How many lines of a text start with a directive. *)
Definition directive_lines (d text : string) : nat :=
  length (List.filter (fun l => startswith l d) (split_lines text)).

(** The file types [src_file_filter] has a directive for, and the ones it
    drops without a word. *)
Definition recognized (ft : string) : bool :=
  str_in ft ["verilogSource"; "systemVerilogSource"; "vhdlSource"; "PDC"; "SDC"; "tclSource"].

Definition inert (ft : string) : bool := str_in ft ["user"; "LPF"].

End Spec.
End RadiantSpec.

Module VerilatorSpec.
Import Verilator.

Section Spec.
Variable Value : Type.
Variable _param_value_str : Value -> string -> string.
Variable tool_ok : string -> list string -> bool.

Abbreviation Verilator := (Verilator Value).
Abbreviation configure_main := (configure_main Value _param_value_str).
Abbreviation build_main := (build_main Value tool_ok).
Abbreviation run_main := (run_main Value _param_value_str tool_ok).

(** The options once a missing mode has been defaulted, and the mode the
    backend works with. *)
Definition defaulted (o : ToolOptions) : ToolOptions :=
  match members o !! "mode" with
  | None => with_mode_cc o
  | Some _ => o
  end.

Definition mode_of (o : ToolOptions) : Scalar :=
  default (SStr "cc") (members o !! "mode").

(** The lines of the command file. *)
Definition mode_line (mode : Scalar) : list string :=
  if scalar_in mode ["cc"; "sc"] then ["--" +:+ py_str mode +:+ nl] else [].

Definition exe_line (o : ToolOptions) : list string :=
  if negb (String.eqb (lower (str_get (members o) "exe")) "false")
  then ["--exe" +:+ nl] else [].

Definition libs_chunks (o : ToolOptions) : list string :=
  match lists o !! "libs" with
  | Some libs => flat_map (fun lib => ["-LDFLAGS " +:+ lib +:+ nl]) libs
  | None => []
  end.

Definition incdir_chunks (dirs : list string) : list string :=
  flat_map (fun d => ["+incdir+" +:+ d +:+ nl] ++ ["-CFLAGS -I" +:+ d +:+ nl]) dirs.

Definition G_chunk (d : list (string * Value)) : string :=
  join "" (map (fun kv => "-G" +:+ fst kv +:+ "=" +:+ _param_value_str (snd kv) G_quote +:+ nl) d).

Definition D_chunk (d : list (string * Value)) : string :=
  join "" (map (fun kv => "-D" +:+ fst kv +:+ "=" +:+ _param_value_str (snd kv) "" +:+ nl) d).

(** What [write_vc_options] writes, from the files sorted by type. *)
Definition sorted_chunks (s : Verilator) (sorted : list string * list string * list string)
  : list string :=
  let '(vlt_files, vlog_files, opt_c_files) := sorted in
  (if nonempty vlt_files then [join nl vlt_files +:+ nl] else [])
  ++ [join nl vlog_files +:+ nl]
  ++ ["--top-module " +:+ toplevel s +:+ nl]
  ++ exe_line (tool_options s)
  ++ [join nl opt_c_files] ++ [nl] ++ [G_chunk (vlogparam s)] ++ [D_chunk (vlogdefine s)].

Definition options_chunks (s : Verilator) : list string :=
  libs_chunks (tool_options s) ++ incdir_chunks (incdirs s)
  ++ sorted_chunks s (sort_files (src_files s) [] [] []).

(** [self] once [_write_config_files] has named the command file and
    defaulted the mode. *)
Definition configured (s : Verilator) : Verilator :=
  set_tool_options (defaulted (tool_options s)) (set_verilator_file (name s +:+ ".vc") s).

Definition vc_chunks (s : Verilator) : list string :=
  ["--Mdir ." +:+ nl] ++ mode_line (mode_of (tool_options s)) ++ options_chunks s.

Definition config_mk (s : Verilator) : string :=
  CONFIG_MK_TEMPLATE (toplevel s) (name s +:+ ".vc")
    (match lists (tool_options s) !! "verilator_options" with
     | Some l => join " " l
     | None => ""
     end)
    (match lists (tool_options s) !! "make_options" with
     | Some l => join " " l
     | None => ""
     end).

(** The warning of [check_managed_parser]. *)
Definition managed_warning (o : ToolOptions) : list (Level * string) :=
  match members o !! "cli_parser" with
  | None => []
  | Some v => if scalar_eq_str v "managed" then [] else [(WARNING, CLI_PARSER_DEPRECATED)]
  end.

(** The error for an illegal mode, with the allowed set spelled out. *)
Definition ILLEGAL (v : Scalar) : PyError :=
  RuntimeError ("Illegal verilator mode " +:+ py_str v +:+ ". Allowed values are "
                +:+ "binary, cc, dpi-hdr-only, lint-only, none, preprocess-only, sc, xml-only").

(** [str(self.tool_options.get(k)).lower() == "true"] *)
Definition is_true (o : ToolOptions) (k : string) : bool :=
  String.eqb (lower (str_get (members o) k)) "true".

(** The [make] invocations of [build_main], in order. *)
Definition phony : list string :=
  ["binary"; "dpi-hdr-only"; "lint-only"; "preprocess-only"; "xml-only"].

Definition build_calls (o : ToolOptions) : list (string * list string) :=
  let mode := mode_of o in
  (if negb (scalar_eq_str mode "none")
   then [("make", if scalar_in mode phony then [py_str mode] else [])] else [])
  ++ (if is_true o "gen-xml" then [("make", ["xml-only"])] else [])
  ++ (if is_true o "gen-dpi-hdr" then [("make", ["dpi-hdr-only"])] else [])
  ++ (if is_true o "gen-preprocess" then [("make", ["preprocess-only"])] else []).

(** Processes are spawned one after the other until one fails. *)
Fixpoint spawn (calls : list (string * list string))
  : list (string * list string) * option PyError :=
  match calls with
  | [] => ([], None)
  | (cmd, a) :: rest =>
      if tool_ok cmd a
      then let '(l, e) := spawn rest in ((cmd, a) :: l, e)
      else ([(cmd, a)], Some (CalledProcessError cmd a))
  end.

(** What a method that ends with these processes returns. *)
Definition outcome_of (e : option PyError) : outcome unit :=
  match e with
  | None => Ok tt
  | Some e => Raise e
  end.

(** [st] after one more process. *)
Definition spawned (st : St Verilator) (cmd : string) (a : list string) : St Verilator :=
  mkSt (self st) (files st) (fh st) (logs st) (procs st ++ [(cmd, a)]).

(** The arguments [run_main] assembles. *)
Definition plus_arg (kv : string * Value) : string :=
  "+" +:+ fst kv +:+ "=" +:+ _param_value_str (snd kv) "".

Definition cmdline_arg (kv : string * Value) : string :=
  "--" +:+ fst kv +:+ "=" +:+ _param_value_str (snd kv) "".

Definition runtime_args (s : Verilator) : list string :=
  map plus_arg (plusarg s) ++ map cmdline_arg (cmdlinearg s)
  ++ default [] (lists (tool_options s) !! "run_options").

Definition no_run : list string :=
  ["dpi-hdr-only"; "lint-only"; "preprocess-only"; "xml-only"].

(** The three passes of the backend. *)
Inductive pass := Configure | Build | Run.

Definition run_pass (p : pass) : M Verilator unit :=
  match p with
  | Configure => configure_main
  | Build => build_main
  | Run => run_main
  end.

(** The state after the passes of a list, one after the other, each on the
    state the one before left (also when that one raised). *)
Definition after (l : list pass) (st : St Verilator) : St Verilator :=
  fold_left (fun st p => snd (run_pass p st)) l st.

(** The file types [_write_config_files] has a place for. *)
Definition sorted (ft : string) : bool :=
  startswith ft "systemVerilogSource" || startswith ft "verilogSource"
  || str_in ft ["cppSource"; "systemCSource"; "cSource"] || String.eqb ft "vlt".

(** The same project with another list of source files. *)
Definition set_src_files (l : list File.t) (s : Verilator) : Verilator :=
  mkVerilator (name s) (work_root s) (toplevel s) (tool_options s) (vlogparam s)
    (vlogdefine s) (plusarg s) (cmdlinearg s) l (incdirs s) (args s) (verilator_file s).

End Spec.
End VerilatorSpec.

(** ** Descriptions for the further properties *)

Module UtilsLayout.
Import Utils UtilsSpec.

(** What [write] leaves in the output file. *)
Definition written (ec : EdaCommands) : list string :=
  match default_target ec with
  | None => [header ec]
  | Some t =>
      if truthy t
      then header ec :: ("all: " +:+ t +:+ nl) :: flat_map command_chunks (commands ec)
      else [header ec]
  end.

End UtilsLayout.

(** The constraint files the loop of Radiant's [configure_main] counts. *)
Module RadiantFiles.

Definition MULTIPLE_PDC : Level * string :=
  (WARNING, "Multiple PDC files detected. Only the first one will be used").

Definition count_pdc (l : list File.t) : nat :=
  length (List.filter (fun f => String.eqb (File.file_type f) "PDC") l).

End RadiantFiles.

(** Option sets that differ in one entry. *)
Module Options.

(** The options with one more member. *)
Definition with_member (k : string) (v : Scalar) (o : ToolOptions) : ToolOptions :=
  mkToolOptions (<[k := v]> (members o)) (lists o).

(** The options with one more list. *)
Definition with_list (k : string) (l : list string) (o : ToolOptions) : ToolOptions :=
  mkToolOptions (members o) (<[k := l]> (lists o)).

End Options.

(** The file types the loop of [_write_config_files] tests for. *)
Module VerilatorFiles.

Definition is_hdl (f : File.t) : bool :=
  startswith (File.file_type f) "systemVerilogSource"
  || startswith (File.file_type f) "verilogSource".

Definition is_c (f : File.t) : bool :=
  str_in (File.file_type f) ["cppSource"; "systemCSource"; "cSource"].

Definition is_vlt (f : File.t) : bool := String.eqb (File.file_type f) "vlt".

(** The names of the files of a list that pass a test, in the order of the
    list. *)
Definition names_of (p : File.t -> bool) (l : list File.t) : list string :=
  map File.name (List.filter p l).

End VerilatorFiles.

(** Reading the rules of a build file: a line that is no recipe (no leading
    tab) and no comment, and that holds a colon, names its targets before the
    colon, separated by spaces. *)
Module Makefile.

Fixpoint before_colon (s : string) : option string :=
  match s with
  | "" => None
  | String c s' =>
      if Ascii.eqb c ":" then Some ""
      else match before_colon s' with
           | Some t => Some (String c t)
           | None => None
           end
  end.

Fixpoint split_spaces (s : string) : list string :=
  match s with
  | "" => [""]
  | String c s' =>
      if Ascii.eqb c " " then "" :: split_spaces s'
      else match split_spaces s' with
           | w :: ws => String c w :: ws
           | [] => [String c ""]
           end
  end.

Definition rule_targets (line : string) : list string :=
  match line with
  | "" => []
  | String c _ =>
      if Ascii.eqb c TAB || Ascii.eqb c "#" then []
      else match before_colon line with
           | Some t => List.filter truthy (split_spaces t)
           | None => []
           end
  end.

Definition targets (text : string) : list string :=
  flat_map rule_targets (split_lines text).

End Makefile.

(** * Properties *)

(** ** Strings *)

Lemma sapp_cons (c : ascii) (s t : string) : String c s +:+ t = String c (s +:+ t).
Proof. reflexivity. Qed.

Lemma sapp_nil_l (t : string) : "" +:+ t = t.
Proof. reflexivity. Qed.

Lemma sapp_nil_r (s : string) : s +:+ "" = s.
Proof. induction s as [|c s IH]; [reflexivity|]. now rewrite sapp_cons, IH. Qed.

Lemma app_assoc_str (s t u : string) : (s +:+ t) +:+ u = s +:+ (t +:+ u).
Proof. induction s as [|c s IH]; [reflexivity|]. now rewrite !sapp_cons, IH. Qed.

Ltac str_norm := rewrite ?app_assoc_str, ?sapp_cons, ?sapp_nil_l.

Lemma concat_empty_cons (x : string) (xs : list string) :
  String.concat "" (x :: xs) = x +:+ String.concat "" xs.
Proof. destruct xs; simpl; [now rewrite sapp_nil_r | reflexivity]. Qed.

Lemma substring_all (s : string) : substring 0 (String.length s) s = s.
Proof. induction s as [|c s IH]; simpl; [reflexivity | now rewrite IH]. Qed.

(** A line without a line feed, followed by one, is the first line. *)
Lemma split_lines_line (l r : string) :
  contains nl l = false -> split_lines (l +:+ nl +:+ r) = l :: split_lines r.
Proof.
  induction l as [|c l IH]; intros H.
  - reflexivity.
  - rewrite sapp_cons. simpl in H. apply orb_false_elim in H as [Hc Hl].
    simpl. destruct (Ascii.eqb_spec c LF) as [->|Hne].
    + destruct l; discriminate.
    + rewrite IH; [reflexivity|].
      destruct l; [reflexivity | exact Hl].
Qed.

Lemma split_lines_blank (r : string) : split_lines (nl +:+ r) = "" :: split_lines r.
Proof. reflexivity. Qed.

Lemma prefix_nil (s : string) : String.prefix "" s = true.
Proof. now destruct s. Qed.

(** Whether a string that is not empty starts with a character does not
    depend on what is appended to it. *)
Lemma startswith_char_app (c a : ascii) (s t : string) :
  startswith (String a s +:+ t) (String c "") = startswith (String a s) (String c "").
Proof.
  unfold startswith. rewrite sapp_cons. cbn [String.prefix].
  destruct (ascii_dec c a); [|reflexivity]. now rewrite !prefix_nil.
Qed.

Lemma os_path_join_inj (a b b' : string) :
  startswith b "/" = startswith b' "/" ->
  os_path_join a b = os_path_join a b' -> b = b'.
Proof.
  unfold os_path_join. intros ->.
  destruct (startswith b' "/"); [easy|].
  destruct (negb (truthy a) || endswith_char "/" a); intros H.
  - now apply String.app_inj in H.
  - apply String.app_inj in H. now apply String.app_inj in H.
Qed.

Lemma endswith_app (c : ascii) (s t : string) :
  t <> "" -> endswith_char c (s +:+ t) = endswith_char c t.
Proof.
  intros Ht. induction s as [|a s IH]; [reflexivity|].
  rewrite sapp_cons. simpl. destruct (s +:+ t) eqn:E; [|exact IH].
  destruct s; [now rewrite sapp_nil_l in E | discriminate].
Qed.

(** The last character of a joined path is the last character of the file
    name. *)
Lemma endswith_os_path_join (c : ascii) (a b : string) :
  b <> "" -> endswith_char c (os_path_join a b) = endswith_char c b.
Proof.
  intros Hb. unfold os_path_join.
  destruct (startswith b "/"); [reflexivity|].
  destruct (negb (truthy a) || endswith_char "/" a).
  - now apply endswith_app.
  - rewrite endswith_app; [now apply (endswith_app c "/")|].
    now destruct b.
Qed.

Lemma has_char_app (c : ascii) (s t : string) :
  has_char c (s +:+ t) = has_char c s || has_char c t.
Proof.
  induction s as [|a s IH]; [reflexivity|].
  rewrite sapp_cons. simpl. now rewrite IH, orb_assoc.
Qed.

Lemma concat_empty_app (a b : list string) :
  String.concat "" (a ++ b) = String.concat "" a +:+ String.concat "" b.
Proof.
  induction a as [|x a IH]; [reflexivity|].
  cbn [app]. now rewrite !concat_empty_cons, IH, app_assoc_str.
Qed.

(** Lines without a line feed. *)
Lemma one_line_app (a b : string) : one_line (a +:+ b) = one_line a && one_line b.
Proof. unfold one_line. now rewrite has_char_app, negb_orb. Qed.

Lemma one_line_replace (x : string) : one_line (replace_char "." "_" x) = one_line x.
Proof.
  unfold one_line. f_equal. induction x as [|c x IH]; [reflexivity|].
  cbn [replace_char has_char]. rewrite IH.
  destruct (Ascii.eqb_spec c "."); [subst; reflexivity | reflexivity].
Qed.

Lemma one_line_join (sep : string) (l : list string) :
  one_line sep = true -> forallb one_line l = true -> one_line (join sep l) = true.
Proof.
  intros Hs. unfold join. induction l as [|x l IH]; [reflexivity|].
  cbn [forallb]. intros H. apply andb_true_iff in H as [Hx Hl].
  destruct l as [|y l]; [exact Hx|].
  change (String.concat sep (x :: y :: l)) with (x +:+ sep +:+ String.concat sep (y :: l)).
  rewrite !one_line_app, Hx, Hs. now apply IH.
Qed.

Lemma split_lines_one_line (l r : string) :
  one_line l = true -> split_lines (l +:+ nl +:+ r) = l :: split_lines r.
Proof.
  unfold one_line. induction l as [|c l IH]; intros H.
  - reflexivity.
  - rewrite sapp_cons. cbn [has_char] in H. apply negb_true_iff, orb_false_elim in H as [Hc Hl].
    cbn [split_lines]. rewrite Hc. rewrite IH; [reflexivity | now rewrite Hl].
Qed.

Lemma split_lines_lines (ls : list string) :
  forallb one_line ls = true ->
  split_lines (String.concat "" (map (fun l => l +:+ nl) ls)) = ls ++ [""].
Proof.
  induction ls as [|l ls IH]; [reflexivity|].
  cbn [forallb map]. intros H. apply andb_true_iff in H as [Hl Hls].
  rewrite concat_empty_cons, app_assoc_str, split_lines_one_line by exact Hl.
  now rewrite IH.
Qed.

Lemma startswith_self_app (p x : string) : startswith (p +:+ x) p = true.
Proof.
  unfold startswith. induction p as [|c p IH]; [apply prefix_nil|].
  rewrite sapp_cons. cbn [String.prefix]. destruct (ascii_dec c c); [exact IH | congruence].
Qed.

(** Counting the lines that open with a directive. *)
Lemma directive_count (d : string) (a b c e f : list string) :
  Forall (fun l => startswith l d = false) (a ++ f) ->
  length (List.filter (fun l => startswith l d) (a ++ b ++ c ++ e ++ f))
  = length (List.filter (fun l => startswith l d) b)
    + length (List.filter (fun l => startswith l d) c)
    + length (List.filter (fun l => startswith l d) e).
Proof.
  intros H. apply Forall_app in H as [Ha Hf].
  assert (Hnone : forall l, Forall (fun l => startswith l d = false) l ->
                            List.filter (fun l => startswith l d) l = []).
  { induction 1 as [|x l Hx Hl IH]; [reflexivity|]. cbn [List.filter]. now rewrite Hx. }
  rewrite !List.filter_app, !length_app, (Hnone a Ha), (Hnone f Hf). cbn [length]. lia.
Qed.

(** ** The monad *)

Section MonadFacts.
Context {Obj : Type}.

Abbreviation emits := (@emits Obj).
Abbreviation writes := (@writes Obj).

Lemma wrote_logged_nil (st : St Obj) : wrote_logged st [] [] = st.
Proof. destruct st. unfold wrote_logged. simpl. now rewrite !app_nil_r. Qed.

Lemma wrote_logged_twice (st : St Obj) a b la lb :
  wrote_logged (wrote_logged st a la) b lb = wrote_logged st (a ++ b) (la ++ lb).
Proof. unfold wrote_logged. simpl. now rewrite !app_assoc. Qed.

Lemma for_each_wrote_logged {A} (body : A -> M Obj unit) (g : A -> list string)
    (w : A -> list (Level * string)) (l : list A) :
  (forall x st, body x st = (Ok tt, wrote_logged st (g x) (w x))) ->
  forall st, for_each l body st = (Ok tt, wrote_logged st (flat_map g l) (flat_map w l)).
Proof.
  intros Hb. induction l as [|x l IH]; intros st; simpl.
  - unfold ret. now rewrite wrote_logged_nil.
  - unfold bind. rewrite Hb, IH, wrote_logged_twice. reflexivity.
Qed.

Lemma emits_ret : emits (ret tt) [] [].
Proof. intros st. unfold ret. now rewrite wrote_logged_nil. Qed.

Lemma emits_write (s : string) : emits (f_write s) [s] [].
Proof. intros st. unfold f_write, wrote_logged. now rewrite app_nil_r. Qed.

Lemma emits_bind (m : M Obj unit) (k : M Obj unit) c l c' l' :
  emits m c l -> emits k c' l' -> emits (bind m (fun _ => k)) (c ++ c') (l ++ l').
Proof.
  intros Hm Hk st. unfold bind. now rewrite Hm, Hk, wrote_logged_twice.
Qed.

Lemma emits_if (b : bool) (m1 m2 : M Obj unit) c1 l1 c2 l2 :
  emits m1 c1 l1 -> emits m2 c2 l2 ->
  emits (if b then m1 else m2) (if b then c1 else c2) (if b then l1 else l2).
Proof. now destruct b. Qed.

Lemma emits_for_each {A} (body : A -> M Obj unit) (g : A -> list string)
    (w : A -> list (Level * string)) (l : list A) :
  (forall x, emits (body x) (g x) (w x)) ->
  emits (for_each l body) (flat_map g l) (flat_map w l).
Proof. intros Hb st. now apply for_each_wrote_logged. Qed.

Lemma emits_eq (m : M Obj unit) c l c' l' :
  emits m c l -> c = c' -> l = l' -> emits m c' l'.
Proof. now intros H <- <-. Qed.

Lemma wrote_nil (st : St Obj) : wrote st [] = st.
Proof. destruct st. unfold wrote. simpl. now rewrite app_nil_r. Qed.

Lemma wrote_wrote (st : St Obj) (a b : list string) :
  wrote (wrote st a) b = wrote st (a ++ b).
Proof. unfold wrote. simpl. now rewrite app_assoc. Qed.

Lemma f_write_wrote (s : string) (st : St Obj) : f_write s st = (Ok tt, wrote st [s]).
Proof. reflexivity. Qed.

Lemma for_each_write {A} (g : A -> string) (l : list A) (st : St Obj) :
  for_each l (fun x => f_write (g x)) st = (Ok tt, wrote st (map g l)).
Proof.
  revert st. induction l as [|x l IH]; intros st; simpl.
  - unfold ret. now rewrite wrote_nil.
  - unfold bind. rewrite f_write_wrote, IH, wrote_wrote. reflexivity.
Qed.

(** A loop whose body only writes chunks that depend on the element. *)
Lemma for_each_wrote {A} (body : A -> M Obj unit) (g : A -> list string) (l : list A) :
  (forall x st, body x st = (Ok tt, wrote st (g x))) ->
  forall st, for_each l body st = (Ok tt, wrote st (flat_map g l)).
Proof.
  intros Hb. induction l as [|x l IH]; intros st; simpl.
  - unfold ret. now rewrite wrote_nil.
  - unfold bind. rewrite Hb, IH, wrote_wrote. reflexivity.
Qed.

Lemma writes_ret : writes (ret tt) [].
Proof. intros st. unfold ret. now rewrite wrote_nil. Qed.

Lemma writes_write (s : string) : writes (f_write s) [s].
Proof. intros st. reflexivity. Qed.

Lemma writes_bind (m k : M Obj unit) c c' :
  writes m c -> writes k c' -> writes (bind m (fun _ => k)) (c ++ c').
Proof. intros Hm Hk st. unfold bind. now rewrite Hm, Hk, wrote_wrote. Qed.

Lemma writes_if (b : bool) (m1 m2 : M Obj unit) c1 c2 :
  writes m1 c1 -> writes m2 c2 -> writes (if b then m1 else m2) (if b then c1 else c2).
Proof. now destruct b. Qed.

Lemma writes_for_each {A} (body : A -> M Obj unit) (g : A -> list string) (l : list A) :
  (forall x, writes (body x) (g x)) -> writes (for_each l body) (flat_map g l).
Proof. intros Hb st. now apply for_each_wrote. Qed.

End MonadFacts.

Ltac writes_step :=
  first [ apply writes_write
        | apply writes_ret
        | apply writes_bind
        | apply writes_if
        | apply writes_for_each; intros ? ].

(** ** EdaCommands *)

Module UtilsFacts.
Import Utils UtilsSpec.

Lemma write_command_wrote (c : Command) (st : St EdaCommands) :
  write_command c st = (Ok tt, wrote st (command_chunks c)).
Proof.
  unfold write_command, command_chunks, bind.
  rewrite f_write_wrote, for_each_write.
  destruct (nonempty (order_only_deps c)), (nonempty (command c));
    unfold bind, ret; rewrite ?f_write_wrote, ?for_each_write, ?f_write_wrote;
    rewrite ?wrote_wrote; simpl; rewrite <- ?app_assoc; simpl; try reflexivity.
Qed.

Lemma add_all_header (cs : list Command) (ec : EdaCommands) :
  header (add_all cs ec) = header ec.
Proof. revert ec. induction cs as [|c cs IH]; intros ec; simpl; [reflexivity|]. now rewrite IH. Qed.

Lemma add_all_default_target (cs : list Command) (ec : EdaCommands) :
  default_target (add_all cs ec) = default_target ec.
Proof. revert ec. induction cs as [|c cs IH]; intros ec; simpl; [reflexivity|]. now rewrite IH. Qed.

Lemma write_ok (outfile : string) (ec : EdaCommands) fs h lg ps (t : string) :
  default_target ec = Some t -> truthy t = true ->
  write outfile (mkSt ec fs h lg ps) =
  (Ok tt,
   mkSt ec (<[outfile := header ec :: ("all: " +:+ t +:+ nl)
                  :: flat_map command_chunks (commands ec)]> fs) h lg ps).
Proof.
  intros Hd Ht. unfold write, bind, get_self, with_open_w. simpl.
  rewrite Hd, Ht. simpl. unfold bind. simpl.
  rewrite (for_each_wrote _ command_chunks _ write_command_wrote).
  simpl. now rewrite insert_insert_eq.
Qed.

Lemma write_unset (outfile : string) (ec : EdaCommands) fs h lg ps :
  default_target ec = None ->
  write outfile (mkSt ec fs h lg ps) =
  (Raise (AttributeError "'EdaCommands' object has no attribute 'default_target'"),
   mkSt ec (<[outfile := [header ec]]> fs) h lg ps).
Proof.
  intros Hd. unfold write, bind, get_self, with_open_w. simpl.
  rewrite Hd. simpl. now rewrite insert_insert_eq.
Qed.

Lemma write_falsy (outfile : string) (ec : EdaCommands) fs h lg ps (t : string) :
  default_target ec = Some t -> truthy t = false ->
  write outfile (mkSt ec fs h lg ps) =
  (Raise (RuntimeError "Internal Edalize error. Missing default target"),
   mkSt ec (<[outfile := [header ec]]> fs) h lg ps).
Proof.
  intros Hd Ht. unfold write, bind, get_self, with_open_w. simpl.
  rewrite Hd, Ht. simpl. now rewrite insert_insert_eq.
Qed.

Lemma strip_all_prefix (t : string) : strip_prefix "all: " ("all: " +:+ t) = Some t.
Proof.
  unfold strip_prefix. str_norm. simpl.
  replace (String.prefix "" t) with true by (now destruct t).
  rewrite Nat.sub_0_r. now rewrite substring_all.
Qed.

End UtilsFacts.

Import Utils UtilsSpec UtilsFacts.

(** C8 (counterexample): a default target that holds a line feed is written
    as it is, so the ["all:"] line of the file ends inside it and the target
    read back is only its first line. *)
Lemma all_line_roundtrip_fails_on_line_feed :
  let t := "a" +:+ nl +:+ "b" in
  let st := mkSt (set_default_target t (add_all [] init)) ∅ [] [] [] in
  fst (write "Makefile" st) = Ok tt /\
  read_back "Makefile" (snd (write "Makefile" st)) = Some "a" /\
  read_back "Makefile" (snd (write "Makefile" st)) <> Some t.
Proof. vm_compute. repeat split; congruence. Qed.

(** C8 (amended): for every command list and every default target that is
    not empty and holds no line feed, [write] succeeds and the target read
    back from the ["all:"] line of the file is the one that was set. *)
Theorem all_line_roundtrip (cs : list Command) (t outfile : string) fs h lg ps :
  truthy t = true ->
  contains nl t = false ->
  let st := mkSt (set_default_target t (add_all cs init)) fs h lg ps in
  fst (write outfile st) = Ok tt /\
  read_back outfile (snd (write outfile st)) = Some t.
Proof.
  intros Ht Hnl st. subst st.
  rewrite (write_ok _ _ _ _ _ _ t) by (reflexivity || assumption).
  split; [reflexivity|].
  unfold read_back, content. simpl. rewrite lookup_insert_eq.
  rewrite !concat_empty_cons, add_all_header. simpl header.
  unfold parse_all_target.
  rewrite !app_assoc_str.
  rewrite (split_lines_line "#Auto generated by Edalize") by reflexivity.
  rewrite split_lines_blank.
  rewrite <- (app_assoc_str "all: " t), split_lines_line.
  - simpl. now rewrite strip_all_prefix.
  - str_norm. simpl. simpl in Hnl. destruct t; [reflexivity | exact Hnl].
Qed.

Lemma all_line_roundtrip_witness :
  let st := mkSt (set_default_target "top.bit"
            (add_all [mkCommand ["touch"; "top.bit"] ["top.bit"] ["top.v"] []] init))
      ∅ [] [] [] in
  fst (write "Makefile" st) = Ok tt /\
  read_back "Makefile" (snd (write "Makefile" st)) = Some "top.bit".
Proof.
  apply (all_line_roundtrip
   [mkCommand ["touch"; "top.bit"] ["top.bit"] ["top.v"] []] "top.bit" "Makefile");
    reflexivity.
Defined.

(** C9: on a command list for which [set_default_target] was never called,
    [write] raises (the attribute is not there), and on one whose default
    target is empty it raises the "Missing default target" error; in both
    cases for every command list, and no process has been spawned. *)
Theorem write_without_default_target_raises (cs : list Command) (outfile : string)
    fs h lg ps :
  let unset := mkSt (add_all cs init) fs h lg ps in
  let empty := mkSt (set_default_target "" (add_all cs init)) fs h lg ps in
  (exists msg, fst (write outfile unset) = Raise (AttributeError msg)) /\
  procs (snd (write outfile unset)) = ps /\
  fst (write outfile empty)
    = Raise (RuntimeError "Internal Edalize error. Missing default target") /\
  procs (snd (write outfile empty)) = ps.
Proof.
  intros unset empty. subst unset empty.
  rewrite write_unset by apply add_all_default_target.
  rewrite (write_falsy _ _ _ _ _ _ "") by reflexivity.
  simpl. eauto.
Qed.

(** ** Radiant *)

Module RadiantFacts.
Import Radiant RadiantSpec.

Section Facts.
Variable Value : Type.
Variable fmt : Value -> string.
Variable _param_value_str : Value -> string -> string.
Variable get_file_type : File.t -> string.

Abbreviation Radiant := (Radiant Value).
Abbreviation src_file_filter := (src_file_filter Value get_file_type).
Abbreviation write_source := (write_source Value get_file_type).
Abbreviation pdc_loop := (pdc_loop Value).
Abbreviation configure_main := (configure_main Value fmt _param_value_str get_file_type).
Abbreviation filter_line := (filter_line get_file_type).
Abbreviation filter_log := (filter_log get_file_type).
Abbreviation source_chunks := (source_chunks get_file_type).
Abbreviation kv_list := (kv_list Value).
Abbreviation incdir_chunks := (incdir_chunks Value).
Abbreviation generic_chunks := (generic_chunks Value fmt).
Abbreviation vlogparam_chunks := (vlogparam_chunks Value _param_value_str).
Abbreviation vlogdefine_chunks := (vlogdefine_chunks Value fmt).
Abbreviation script_chunks := (script_chunks Value fmt _param_value_str get_file_type).
Abbreviation kv_one_line := (kv_one_line Value).
Abbreviation single_lines := (single_lines Value fmt _param_value_str).
Abbreviation head_lines := (head_lines Value).
Abbreviation tail_lines := (tail_lines Value get_file_type).
Abbreviation script_lines := (script_lines Value fmt _param_value_str get_file_type).

Lemma src_file_filter_run (f : File.t) (st : St Radiant) :
  src_file_filter f st = (Ok (filter_line f), wrote_logged st [] (filter_log f)).
Proof.
  unfold Radiant.src_file_filter, filter_line, filter_log.
  destruct (dict_get file_types (get_file_type f)).
  - unfold ret. now rewrite wrote_logged_nil.
  - destruct (String.eqb (get_file_type f) "tclSource").
    + unfold ret. now rewrite wrote_logged_nil.
    + destruct (str_in (get_file_type f) ["user"; "LPF"]).
      * unfold ret. now rewrite wrote_logged_nil.
      * unfold bind, logger, ret, wrote_logged. simpl. now rewrite app_nil_r.
Qed.

Lemma write_source_run (f : File.t) (st : St Radiant) :
  write_source f st = (Ok tt, wrote_logged st (source_chunks f) (filter_log f)).
Proof.
  unfold Radiant.write_source, bind, source_chunks. rewrite src_file_filter_run.
  destruct (truthy (filter_line f)).
  - unfold f_write, wrote_logged. simpl. now rewrite app_nil_r.
  - unfold ret, wrote_logged. simpl. now rewrite app_nil_r.
Qed.

Lemma pdc_loop_run (l : list File.t) (pdc_file : option string) (st : St Radiant) :
  exists r, pdc_loop l pdc_file st = (Ok r, wrote_logged st [] (pdc_warnings l pdc_file)).
Proof.
  revert pdc_file st. induction l as [|f l IH]; intros pdc_file st; simpl.
  - exists pdc_file. unfold ret. now rewrite wrote_logged_nil.
  - destruct (String.eqb (File.file_type f) "PDC"); [|apply IH].
    destruct (pdc_truthy pdc_file); [|apply IH].
    unfold bind, logger.
    destruct (IH pdc_file
      (mkSt (self st) (files st) (fh st)
         (logs st ++ [(WARNING, "Multiple PDC files detected. Only the first one will be used")])
         (procs st))) as [r Hr].
    exists r. rewrite Hr. unfold wrote_logged. simpl.
    now rewrite <- !app_assoc.
Qed.

Lemma write_source_emits (f : File.t) : emits (write_source f) (source_chunks f) (filter_log f).
Proof. intros st. apply write_source_run. Qed.

(** [configure_main], run to its end. *)
Lemma radiant_configure_run (s : Radiant) fs h lg ps (part : Scalar) :
  members (tool_options s) !! "part" = Some part ->
  configure_main (mkSt s fs h lg ps) =
  (Ok tt,
   mkSt s
     (<[run_script_path s := [RUN_TEMPLATE (replace_char "." "_" (name s))]]>
        (<[script_path s := script_chunks s part]> fs))
     h (lg ++ pdc_warnings (src_files s) None ++ flat_map filter_log (src_files s)) ps).
Proof.
  intros Hpart. unfold Radiant.configure_main, bind at 1, get_self at 1. simpl.
  unfold bind at 1.
  destruct (pdc_loop_run (src_files s) None (mkSt s fs h lg ps)) as [r ->].
  unfold bind at 1, with_open_w at 1.
  unfold bind at 1, part_option at 1, bind at 1, get_self at 1. simpl.
  rewrite Hpart. unfold ret at 1.
  match goal with
  | |- context [bind (f_write ?t) ?k ?st] =>
      assert (E : emits (bind (f_write t) k) (script_chunks s part)
                    (flat_map filter_log (src_files s)))
  end.
  { eapply emits_eq.
    - apply emits_bind; [apply emits_write|].
      apply emits_bind; [apply emits_if; [apply emits_write | apply emits_ret]|].
      apply emits_bind;
        [apply emits_if;
         [apply emits_bind; [apply emits_write|];
          apply emits_bind; apply emits_write | apply emits_ret]|].
      apply emits_bind;
        [apply emits_if;
         [apply emits_bind; [apply emits_write|];
          apply emits_bind; apply emits_write | apply emits_ret]|].
      apply emits_bind;
        [apply emits_if;
         [apply emits_bind; [apply emits_write|];
          apply emits_bind; apply emits_write | apply emits_ret]|].
      apply emits_bind; [apply emits_for_each; apply write_source_emits|].
      apply emits_write.
    - reflexivity.
    - destruct (nonempty (incdirs s)), (nonempty (generic s)), (nonempty (vlogparam s)),
        (nonempty (vlogdefine s)); simpl; now rewrite app_nil_r. }
  rewrite E. unfold with_open_w, f_write, wrote_logged. simpl.
  unfold run_script_path, script_path.
  rewrite !insert_insert_eq, ?app_nil_r, <- app_assoc. reflexivity.
Qed.

Lemma script_paths_differ (s : Radiant) : run_script_path s <> script_path s.
Proof.
  unfold run_script_path, script_path. intros H.
  apply os_path_join_inj in H.
  - apply String.app_inj in H. discriminate.
  - destruct (name s); [reflexivity|].
    now rewrite !startswith_char_app.
Qed.

(** The chunks of the project script once [configure_main] has run. *)
Lemma configure_main_script (s : Radiant) fs h lg ps (part : Scalar) :
  members (tool_options s) !! "part" = Some part ->
  files (snd (configure_main (mkSt s fs h lg ps))) !! script_path s
  = Some (script_chunks s part).
Proof.
  intros Hpart. rewrite (radiant_configure_run _ _ _ _ _ part Hpart). simpl.
  rewrite lookup_insert_ne by apply script_paths_differ.
  apply lookup_insert_eq.
Qed.

(** C5: for the file list [top.v] of type verilogSource, toplevel ["top"]
    and part ["LIFCL-40-9BG400C"], with no include directory and no
    parameter or define, the project script is, in this order: the header
    comment, the create line with the project name and the device, the line
    that sets the top level, one add-source line for top.v with [-work work],
    the save line and the close line; and nothing else. *)
Theorem scenario_a_project_script (nm wr : string) (opts : ToolOptions) fs h lg ps :
  let top_v := File.mk "top.v" "verilogSource" "" in
  let s := mkRadiant nm wr "top" opts [] [] [] [top_v] [] in
  get_file_type top_v = "verilogSource" ->
  members opts !! "part" = Some (SStr "LIFCL-40-9BG400C") ->
  fst (configure_main (mkSt s fs h lg ps)) = Ok tt /\
  content (snd (configure_main (mkSt s fs h lg ps))) (script_path s)
  = Some ("#Generated by Edalize" +:+ nl +:+
          "prj_create -name " +:+ replace_char "." "_" nm +:+ " -impl " +:+ dquote
            +:+ "impl" +:+ dquote +:+ " -dev LIFCL-40-9BG400C" +:+ nl +:+
          "prj_set_impl_opt top top" +:+ nl +:+
          "prj_add_source top.v -work work" +:+ nl +:+
          "prj_save" +:+ nl +:+
          "prj_close" +:+ nl).
Proof.
  intros top_v s Hft Hpart. split.
  - now rewrite (radiant_configure_run s _ _ _ _ _ Hpart).
  - unfold content. rewrite (configure_main_script s _ _ _ _ _ Hpart).
    unfold script_chunks, incdir_chunks, generic_chunks, vlogparam_chunks,
      vlogdefine_chunks, source_chunks, filter_line. simpl.
    fold top_v. rewrite Hft. simpl.
    unfold TCL_TEMPLATE, _work_source. simpl.
    now rewrite !app_assoc_str.
Qed.

Lemma one_line_kv_list (show : Value -> string) (d : list (string * Value)) :
  kv_one_line show d = true -> one_line (kv_list show d) = true.
Proof.
  intros H. unfold kv_list. apply one_line_join; [reflexivity|].
  unfold RadiantSpec.kv_one_line in H. rewrite forallb_forall in *.
  intros x Hx. apply in_map_iff in Hx as (kv & <- & Hkv).
  specialize (H kv Hkv). apply andb_true_iff in H as [Hk Hv].
  now rewrite !one_line_app, Hk, Hv.
Qed.

Lemma one_line_filter_line (f : File.t) :
  one_line (File.name f) && one_line (File.logical_name f) = true ->
  one_line (filter_line f) = true.
Proof.
  intros H. apply andb_true_iff in H as [Hn Hl].
  unfold RadiantSpec.filter_line.
  assert (Hw : one_line (_work_source f) = true).
  { unfold _work_source. destruct (truthy _); rewrite one_line_app; [now rewrite Hl | reflexivity]. }
  assert (Hd : forall d, dict_get file_types (get_file_type f) = Some d -> one_line d = true).
  { unfold file_types. cbn [dict_get].
    intros d. repeat destruct (String.eqb _ _); intros [= <-]; reflexivity. }
  destruct (dict_get file_types (get_file_type f)) as [d|].
  - now rewrite !one_line_app, (Hd d eq_refl), Hn, Hw.
  - destruct (String.eqb _ _); [|reflexivity]. now rewrite one_line_app, Hn.
Qed.

(** A source line opens with the directive of its file type, never with a
    parameter directive. *)
Lemma filter_line_no_directive (f : File.t) :
  startswith (filter_line f) HDL_PARAM = false /\
  startswith (filter_line f) VERILOG_DIRECTIVES = false.
Proof.
  unfold RadiantSpec.filter_line, file_types. cbn [dict_get].
  repeat destruct (String.eqb _ _); split; reflexivity.
Qed.

(** The chunks of the source loop, as lines. *)
Lemma source_chunks_lines (l : list File.t) :
  String.concat "" (flat_map source_chunks l)
  = String.concat "" (map (fun x => x +:+ nl) (List.filter truthy (map filter_line l))).
Proof.
  induction l as [|f l IH]; [reflexivity|].
  cbn [flat_map map List.filter]. rewrite concat_empty_app, IH.
  unfold RadiantSpec.source_chunks. destruct (truthy (filter_line f)).
  - cbn [map]. now rewrite !concat_empty_cons, sapp_nil_r.
  - apply sapp_nil_l.
Qed.

(** The text of the script is its lines, each closed by a line feed. *)
Lemma script_text (s : Radiant) (part : Scalar) :
  String.concat "" (script_chunks s part)
  = String.concat "" (map (fun l => l +:+ nl) (script_lines s part)).
Proof.
  unfold RadiantSpec.script_chunks, RadiantSpec.script_lines, RadiantSpec.head_lines,
    RadiantSpec.tail_lines, incdir_chunks, generic_chunks, vlogparam_chunks,
    vlogdefine_chunks, TCL_TEMPLATE.
  rewrite !map_app, !concat_empty_app, source_chunks_lines.
  destruct (nonempty (incdirs s)), (nonempty (generic s)), (nonempty (vlogparam s)),
    (nonempty (vlogdefine s)); cbn [map];
    rewrite ?concat_empty_cons; cbn [String.concat];
    rewrite ?sapp_nil_r, ?sapp_nil_l, ?app_assoc_str; reflexivity.
Qed.

Lemma script_lines_one_line (s : Radiant) (part : Scalar) :
  single_lines s part = true -> forallb one_line (script_lines s part) = true.
Proof.
  unfold RadiantSpec.single_lines. rewrite !andb_true_iff.
  intros (((((((Hn & Hp) & Ht) & Hi) & Hg) & Hv) & Hd) & Hs).
  unfold RadiantSpec.script_lines, RadiantSpec.head_lines, RadiantSpec.tail_lines.
  rewrite !forallb_app. cbn [forallb].
  rewrite !one_line_app, one_line_replace, Hn, Hp, Ht.
  repeat (apply andb_true_iff; split); try reflexivity.
  - destruct (nonempty (incdirs s)); [|reflexivity]. cbn [forallb].
    rewrite !one_line_app, (one_line_join " " _ eq_refl Hi). reflexivity.
  - destruct (nonempty (generic s)); [|reflexivity]. cbn [forallb].
    rewrite !one_line_app, (one_line_kv_list _ _ Hg). reflexivity.
  - destruct (nonempty (vlogparam s)); [|reflexivity]. cbn [forallb].
    rewrite !one_line_app, (one_line_kv_list _ _ Hv). reflexivity.
  - destruct (nonempty (vlogdefine s)); [|reflexivity]. cbn [forallb].
    rewrite !one_line_app, (one_line_kv_list _ _ Hd). reflexivity.
  - rewrite forallb_forall in *. intros x Hx.
    apply filter_In in Hx as [Hx _]. apply in_map_iff in Hx as (f & <- & Hf).
    apply one_line_filter_line, Hs, Hf.
Qed.

(** No line outside the three blocks opens a parameter directive. *)
Lemma outer_lines_no_directive (s : Radiant) (part : Scalar) :
  Forall (fun l => startswith l HDL_PARAM = false /\ startswith l VERILOG_DIRECTIVES = false)
    (head_lines s part ++ tail_lines s ++ [EmptyString]).
Proof.
  unfold RadiantSpec.head_lines, RadiantSpec.tail_lines.
  rewrite !Forall_app. repeat split.
  - repeat (apply Forall_cons_2; [split; reflexivity|]). apply Forall_nil_2.
  - destruct (nonempty (incdirs s)); repeat constructor.
  - apply Forall_forall. intros x Hx. apply list_elem_of_In, filter_In in Hx as [Hx _].
    apply in_map_iff in Hx as (f & <- & _). apply filter_line_no_directive.
  - repeat constructor.
  - repeat constructor.
Qed.

(** C4: when the device option is there, the project script is exactly the
    template, the include line if there are include directories, the generic
    block, the vlogparam block, the vlogdefine block, the source lines and
    the two closing lines.  A block is empty when its mapping is empty;
    otherwise it is the directive, the [;]-joined list and the closing
    brace.  Read as text, the file is a sequence of records closed by a
    line feed each: those before the blocks, one HDL_PARAM record for
    [generic] if it is non-empty, one for [vlogparam] if it is non-empty, one
    VERILOG_DIRECTIVES record for [vlogdefine] if it is non-empty, and those
    after the blocks; no record before or after the three blocks opens with
    [prj_set_impl_opt HDL_PARAM {] or [prj_set_impl_opt VERILOG_DIRECTIVES {].
    So, when no text the caller gives holds a line feed, the lines of the
    file are those before the blocks, one HDL_PARAM line for [generic] if it
    is non-empty, right after it one HDL_PARAM line for [vlogparam] if it is
    non-empty, one VERILOG_DIRECTIVES line for [vlogdefine] if it is
    non-empty, and the lines after the blocks: the number of lines that open
    with the HDL_PARAM directive is the number of non-empty mappings among
    [generic] and [vlogparam], and a line opens with the VERILOG_DIRECTIVES
    directive only when [vlogdefine] is non-empty. *)
Theorem parameter_directives (s : Radiant) fs h lg ps (part : Scalar) :
  members (tool_options s) !! "part" = Some part ->
  let st' := snd (configure_main (mkSt s fs h lg ps)) in
  let G := if nonempty (generic s)
           then [HDL_PARAM +:+ kv_list fmt (generic s) +:+ "}"] else [] in
  let P := if nonempty (vlogparam s)
           then [HDL_PARAM +:+ kv_list (fun v => _param_value_str v dquote) (vlogparam s)
                   +:+ "}"]
           else [] in
  let D := if nonempty (vlogdefine s)
           then [VERILOG_DIRECTIVES +:+ kv_list fmt (vlogdefine s) +:+ "}"] else [] in
  files st' !! script_path s
  = Some ([TCL_TEMPLATE (replace_char "." "_" (name s)) (py_str part) (toplevel s)]
          ++ incdir_chunks s
          ++ (if nonempty (generic s)
              then [HDL_PARAM; kv_list fmt (generic s); "}" +:+ nl] else [])
          ++ (if nonempty (vlogparam s)
              then [HDL_PARAM;
                    kv_list (fun v => _param_value_str v dquote) (vlogparam s);
                    "}" +:+ nl]
              else [])
          ++ (if nonempty (vlogdefine s)
              then [VERILOG_DIRECTIVES; kv_list fmt (vlogdefine s); "}" +:+ nl] else [])
          ++ flat_map source_chunks (src_files s)
          ++ ["prj_save" +:+ nl +:+ "prj_close" +:+ nl]) /\
  content st' (script_path s)
  = Some (String.concat "" (map (fun l => l +:+ nl)
                              (head_lines s part ++ G ++ P ++ D ++ tail_lines s))) /\
  Forall (fun l => startswith l HDL_PARAM = false /\ startswith l VERILOG_DIRECTIVES = false)
    (head_lines s part ++ tail_lines s ++ [EmptyString]) /\
  (single_lines s part = true ->
   exists text,
     content st' (script_path s) = Some text /\
     split_lines text = head_lines s part ++ G ++ P ++ D ++ tail_lines s ++ [EmptyString] /\
     directive_lines HDL_PARAM text
     = (if nonempty (generic s) then 1 else 0) + (if nonempty (vlogparam s) then 1 else 0) /\
     directive_lines VERILOG_DIRECTIVES text
     = (if nonempty (vlogdefine s) then 1 else 0)).
Proof.
  intros Hpart st' G P D. subst st'.
  pose proof (configure_main_script s fs h lg ps part Hpart) as Hfile.
  split; [exact Hfile|].
  split; [unfold content; rewrite Hfile, script_text; reflexivity|].
  split; [apply outer_lines_no_directive|].
  intros Hone. unfold content. rewrite Hfile. eexists. split; [reflexivity|].
  assert (Hlines : split_lines (String.concat "" (script_chunks s part))
                   = head_lines s part ++ G ++ P ++ D ++ tail_lines s ++ [EmptyString]).
  { rewrite script_text, split_lines_lines by now apply script_lines_one_line.
    unfold RadiantSpec.script_lines. fold G P D. now rewrite <- !app_assoc. }
  split; [exact Hlines|].
  pose proof (outer_lines_no_directive s part) as Hout.
  unfold directive_lines. rewrite Hlines.
  split.
  - rewrite directive_count
      by (eapply Forall_impl; [exact Hout | intros l Hl; exact (proj1 Hl)]).
    subst G P D.
    destruct (nonempty (generic s)), (nonempty (vlogparam s)), (nonempty (vlogdefine s));
      cbn [List.filter length]; rewrite ?startswith_self_app; reflexivity.
  - rewrite directive_count
      by (eapply Forall_impl; [exact Hout | intros l Hl; exact (proj2 Hl)]).
    subst G P D.
    destruct (nonempty (generic s)), (nonempty (vlogparam s)), (nonempty (vlogdefine s));
      cbn [List.filter length]; rewrite ?startswith_self_app; reflexivity.
Qed.

(** C1 (what the code does): every file of [src_files] whose type is PDC
    has its own add-source line in the project script; [pdc_file], which the
    first loop of [configure_main] computes, is not used when the script is
    written. *)
Theorem every_pdc_file_is_added (s : Radiant) fs h lg ps (part : Scalar) (f : File.t) :
  members (tool_options s) !! "part" = Some part ->
  In f (src_files s) ->
  get_file_type f = "PDC" ->
  exists chunks,
    files (snd (configure_main (mkSt s fs h lg ps))) !! script_path s = Some chunks /\
    In ("prj_add_source " +:+ File.name f +:+ _work_source f +:+ nl) chunks.
Proof.
  intros Hpart Hin Hft. exists (script_chunks s part).
  split; [now apply configure_main_script|].
  unfold script_chunks. rewrite !in_app_iff. do 5 right. left.
  apply in_flat_map. exists f. split; [exact Hin|].
  unfold source_chunks, filter_line. rewrite Hft. simpl.
  rewrite !app_assoc_str. now left.
Qed.

Ltac case_eqb :=
  repeat match goal with
    | |- context [String.eqb ?a ?b] => destruct (String.eqb a b)
    | H : context [String.eqb ?a ?b] |- _ => destruct (String.eqb a b)
    end.

(** An unrecognized type gives the empty string and one warning that names
    the file and its declared type. *)
Lemma src_file_filter_unknown (f : File.t) (st : St Radiant) :
  recognized (get_file_type f) = false -> inert (get_file_type f) = false ->
  src_file_filter f st =
  (Ok "",
   mkSt (self st) (files st) (fh st)
     (logs st ++ [(WARNING, File.name f +:+ " has unknown file type '"
                              +:+ File.file_type f +:+ "'")])
     (procs st)).
Proof.
  unfold recognized, inert, Radiant.src_file_filter, str_in. simpl.
  case_eqb; simpl; intros; try discriminate. reflexivity.
Qed.

(** [user] and [LPF] give the empty string and no warning. *)
Lemma src_file_filter_inert (f : File.t) (st : St Radiant) :
  inert (get_file_type f) = true -> src_file_filter f st = (Ok "", st).
Proof.
  unfold inert, Radiant.src_file_filter, str_in. simpl.
  destruct (get_file_type f =? "user")%string eqn:Eu.
  - apply String.eqb_eq in Eu. rewrite Eu. intros _. now destruct st.
  - destruct (get_file_type f =? "LPF")%string eqn:El; [|discriminate].
    apply String.eqb_eq in El. rewrite El. intros _. now destruct st.
Qed.

(** [src_file_filter] always returns, and the text it returns is a function
    of the detected type, the name and the logical name of the file. *)
Lemma src_file_filter_total (f : File.t) (st : St Radiant) :
  fst (src_file_filter f st) = Ok (filter_line f).
Proof. now rewrite src_file_filter_run. Qed.

Lemma filter_line_ext (f1 f2 : File.t) :
  get_file_type f1 = get_file_type f2 ->
  File.name f1 = File.name f2 ->
  File.logical_name f1 = File.logical_name f2 ->
  filter_line f1 = filter_line f2.
Proof. unfold filter_line, _work_source. now intros -> -> ->. Qed.

End Facts.

Lemma parameter_directives_witness :
  let opts := mkToolOptions {[ "part" := SStr "LIFCL-40-9BG400C" ]} ∅ in
  let s : Radiant string :=
    mkRadiant "top" "build" "top" opts [("WIDTH", "8")] [] [("DEPTH", "4")]
      [File.mk "top.v" "verilogSource" ""] [] in
  let st := mkSt s ∅ [] [] [] in
  exists text,
    content (snd (configure_main string id (fun v _ => v) File.file_type st)) (script_path s)
    = Some text /\
    split_lines text
    = ["#Generated by Edalize";
       "prj_create -name top -impl " +:+ dquote +:+ "impl" +:+ dquote
         +:+ " -dev LIFCL-40-9BG400C";
       "prj_set_impl_opt top top";
       "prj_set_impl_opt HDL_PARAM {WIDTH=8}";
       "prj_set_impl_opt HDL_PARAM {DEPTH=4}";
       "prj_add_source top.v -work work";
       "prj_save"; "prj_close"; EmptyString] /\
    directive_lines HDL_PARAM text = 2 /\
    directive_lines VERILOG_DIRECTIVES text = 0.
Proof.
  cbn zeta.
  pose proof (parameter_directives string id (fun v _ => v) File.file_type
                (mkRadiant "top" "build" "top"
                   (mkToolOptions {[ "part" := SStr "LIFCL-40-9BG400C" ]} ∅)
                   [("WIDTH", "8")] [] [("DEPTH", "4")]
                   [File.mk "top.v" "verilogSource" ""] [])
                ∅ [] [] [] (SStr "LIFCL-40-9BG400C") eq_refl) as H.
  cbn zeta in H. destruct H as (_ & _ & _ & H).
  destruct (H eq_refl) as (text & Hc & Hl & Hh & Hv).
  exists text. split; [exact Hc|]. split; [exact Hl|]. split; [exact Hh | exact Hv].
Defined.

Lemma every_pdc_file_is_added_witness :
  let a := File.mk "a.pdc" "PDC" "" in
  let b := File.mk "b.pdc" "PDC" "" in
  let opts := mkToolOptions {[ "part" := SStr "LIFCL-40-9BG400C" ]} ∅ in
  let s : Radiant string := mkRadiant "top" "build" "top" opts [] [] [] [a; b] [] in
  let st' := snd (configure_main string id (fun v _ => v) File.file_type (mkSt s ∅ [] [] [])) in
  (exists chunks, files st' !! script_path s = Some chunks /\
                  In ("prj_add_source a.pdc -work work" +:+ nl) chunks) /\
  (exists chunks, files st' !! script_path s = Some chunks /\
                  In ("prj_add_source b.pdc -work work" +:+ nl) chunks) /\
  logs st' = [(WARNING, "Multiple PDC files detected. Only the first one will be used")].
Proof.
  split; [|split].
  - apply (every_pdc_file_is_added string id (fun v _ => v) File.file_type
             (mkRadiant "top" "build" "top"
                (mkToolOptions {[ "part" := SStr "LIFCL-40-9BG400C" ]} ∅)
                [] [] [] [File.mk "a.pdc" "PDC" ""; File.mk "b.pdc" "PDC" ""] [])
             ∅ [] [] [] (SStr "LIFCL-40-9BG400C") (File.mk "a.pdc" "PDC" ""));
      [reflexivity | now left | reflexivity].
  - apply (every_pdc_file_is_added string id (fun v _ => v) File.file_type
             (mkRadiant "top" "build" "top"
                (mkToolOptions {[ "part" := SStr "LIFCL-40-9BG400C" ]} ∅)
                [] [] [] [File.mk "a.pdc" "PDC" ""; File.mk "b.pdc" "PDC" ""] [])
             ∅ [] [] [] (SStr "LIFCL-40-9BG400C") (File.mk "b.pdc" "PDC" ""));
      [reflexivity | right; now left | reflexivity].
  - vm_compute. reflexivity.
Defined.

(** The project script of two PDC files, chunk by chunk. *)
Example two_pdc_files_script :
  let a := File.mk "a.pdc" "PDC" "" in
  let b := File.mk "b.pdc" "PDC" "" in
  let opts := mkToolOptions {[ "part" := SStr "LIFCL-40-9BG400C" ]} ∅ in
  let s : Radiant string := mkRadiant "top" "build" "top" opts [] [] [] [a; b] [] in
  let st' := snd (configure_main string id (fun v _ => v) File.file_type (mkSt s ∅ [] [] [])) in
  files st' !! "build/top.tcl"
  = Some [ TCL_TEMPLATE "top" "LIFCL-40-9BG400C" "top";
           "prj_add_source a.pdc -work work" +:+ nl;
           "prj_add_source b.pdc -work work" +:+ nl;
           "prj_save" +:+ nl +:+ "prj_close" +:+ nl ].
Proof. vm_compute. reflexivity. Qed.

Lemma scenario_a_project_script_witness :
  let top_v := File.mk "top.v" "verilogSource" "" in
  let opts := mkToolOptions {[ "part" := SStr "LIFCL-40-9BG400C" ]} ∅ in
  let s : Radiant string := mkRadiant "top_impl" "build" "top" opts [] [] [] [top_v] [] in
  let st := mkSt s ∅ [] [] [] in
  fst (configure_main string id (fun v _ => v) File.file_type st) = Ok tt /\
  content (snd (configure_main string id (fun v _ => v) File.file_type st)) (script_path s)
  = Some ("#Generated by Edalize" +:+ nl +:+
          "prj_create -name " +:+ replace_char "." "_" "top_impl" +:+ " -impl " +:+ dquote
            +:+ "impl" +:+ dquote +:+ " -dev LIFCL-40-9BG400C" +:+ nl +:+
          "prj_set_impl_opt top top" +:+ nl +:+
          "prj_add_source top.v -work work" +:+ nl +:+
          "prj_save" +:+ nl +:+
          "prj_close" +:+ nl).
Proof.
  apply (scenario_a_project_script string id (fun v _ => v) File.file_type
           "top_impl" "build" (mkToolOptions {[ "part" := SStr "LIFCL-40-9BG400C" ]} ∅));
    reflexivity.
Defined.

End RadiantFacts.

(** ** Verilator *)

Module VerilatorFacts.
Import Verilator VerilatorSpec.

Section Facts.
Variable Value : Type.
Variable _param_value_str : Value -> string -> string.
Variable tool_ok : string -> list string -> bool.

Abbreviation Verilator := (Verilator Value).
Abbreviation default_mode := (default_mode Value).
Abbreviation mode_option := (mode_option Value).
Abbreviation write_vc_options := (write_vc_options Value _param_value_str).
Abbreviation write_vc := (write_vc Value _param_value_str).
Abbreviation _write_config_files := (_write_config_files Value _param_value_str).
Abbreviation configure_main := (configure_main Value _param_value_str).
Abbreviation build_main := (build_main Value tool_ok).
Abbreviation run_main := (run_main Value _param_value_str tool_ok).
Abbreviation G_chunk := (G_chunk Value _param_value_str).
Abbreviation D_chunk := (D_chunk Value _param_value_str).
Abbreviation sorted_chunks := (sorted_chunks Value _param_value_str).
Abbreviation options_chunks := (options_chunks Value _param_value_str).
Abbreviation configured := (configured Value).
Abbreviation vc_chunks := (vc_chunks Value _param_value_str).
Abbreviation config_mk := (config_mk Value).
Abbreviation spawn := (spawn tool_ok).
Abbreviation spawned := (spawned Value).
Abbreviation plus_arg := (plus_arg Value _param_value_str).
Abbreviation cmdline_arg := (cmdline_arg Value _param_value_str).
Abbreviation runtime_args := (runtime_args Value _param_value_str).
Abbreviation run_pass := (run_pass Value _param_value_str tool_ok).
Abbreviation after := (after Value _param_value_str tool_ok).
Abbreviation set_src_files := (set_src_files Value).

Lemma set_tool_options_same (s : Verilator) : set_tool_options (tool_options s) s = s.
Proof. now destruct s. Qed.

Lemma default_mode_run (st : St Verilator) :
  default_mode st =
  (Ok tt,
   mkSt (set_tool_options (defaulted (tool_options (self st))) (self st))
     (files st) (fh st) (logs st) (procs st)).
Proof.
  unfold Verilator.default_mode, bind, get_self, defaulted.
  destruct (members (tool_options (self st)) !! "mode").
  - unfold ret. rewrite set_tool_options_same. now destruct st.
  - reflexivity.
Qed.

Lemma defaulted_mode (o : ToolOptions) : members (defaulted o) !! "mode" = Some (mode_of o).
Proof.
  unfold defaulted, mode_of. destruct (members o !! "mode") eqn:E; simpl; [exact E|].
  apply lookup_insert_eq.
Qed.

Lemma defaulted_lists (o : ToolOptions) : lists (defaulted o) = lists o.
Proof. unfold defaulted. now destruct (members o !! "mode"). Qed.

Lemma defaulted_other (o : ToolOptions) (k : string) :
  k <> "mode" -> members (defaulted o) !! k = members o !! k.
Proof.
  intros Hk. unfold defaulted. destruct (members o !! "mode"); [reflexivity|].
  simpl. now rewrite lookup_insert_ne.
Qed.

Lemma write_vc_options_writes (s : Verilator) :
  writes (write_vc_options s) (options_chunks s).
Proof.
  unfold Verilator.write_vc_options, options_chunks, sorted_chunks, libs_chunks,
    incdir_chunks, exe_line.
  destruct (sort_files (src_files s) [] [] []) as [[vlt vlog] optc].
  apply writes_bind.
  { destruct (lists (tool_options s) !! "libs"); repeat writes_step. }
  apply writes_bind; [repeat writes_step|].
  repeat writes_step.
Qed.

Lemma exe_line_defaulted (o : ToolOptions) : exe_line (defaulted o) = exe_line o.
Proof. unfold exe_line, str_get. now rewrite defaulted_other. Qed.

Lemma options_chunks_defaulted (s : Verilator) (v : string) :
  options_chunks (set_tool_options (defaulted (tool_options s)) (set_verilator_file v s))
  = options_chunks s.
Proof.
  unfold options_chunks, sorted_chunks, libs_chunks. simpl.
  now rewrite defaulted_lists, exe_line_defaulted.
Qed.

(** The [with] block of the command file: it stops at an illegal mode, with
    the first line already written. *)
Lemma write_vc_run (st : St Verilator) :
  let o := tool_options (self st) in
  let s2 := set_tool_options (defaulted o) (self st) in
  write_vc st =
  if scalar_in (mode_of o) modes
  then (Ok tt,
        mkSt s2 (files st)
          (fh st ++ ["--Mdir ." +:+ nl] ++ mode_line (mode_of o) ++ options_chunks s2)
          (logs st) (procs st))
  else (Raise (illegal_mode (mode_of o)),
        mkSt s2 (files st) (fh st ++ ["--Mdir ." +:+ nl]) (logs st) (procs st)).
Proof.
  intros o s2. unfold Verilator.write_vc.
  unfold bind at 1, f_write at 1. unfold bind at 1. rewrite default_mode_run.
  unfold bind at 1, Verilator.mode_option at 1, bind at 1, get_self at 1.
  cbn [self tool_options set_tool_options]. fold o. rewrite defaulted_mode.
  unfold ret at 1. unfold bind at 1.
  destruct (scalar_in (mode_of o) modes); [|reflexivity].
  cbn [negb]. unfold ret at 1. unfold bind at 1.
  assert (Hm : @writes Verilator (if scalar_in (mode_of o) ["cc"; "sc"]
                       then f_write ("--" +:+ py_str (mode_of o) +:+ nl) else ret tt)
                 (mode_line (mode_of o))) by (unfold mode_line; repeat writes_step).
  rewrite Hm. unfold bind at 1, get_self at 1. cbn [self wrote].
  fold s2. rewrite write_vc_options_writes. unfold wrote. cbn [self files fh logs procs].
  now rewrite <- !app_assoc.
Qed.

Lemma _write_config_files_run (s : Verilator) fs h lg ps :
  _write_config_files (mkSt s fs h lg ps) =
  if scalar_in (mode_of (tool_options s)) modes
  then (Ok tt,
        mkSt (configured s)
          (<[config_mk_path s := [config_mk s]]>
             (<[makefile_path s := [MAKEFILE_TEMPLATE]]>
                (<[vc_path s := vc_chunks s]> fs)))
          h lg ps)
  else (Raise (illegal_mode (mode_of (tool_options s))),
        mkSt (configured s) (<[vc_path s := ["--Mdir ." +:+ nl]]> fs) h lg ps).
Proof.
  unfold Verilator._write_config_files.
  unfold bind at 1, get_self at 1. cbn [self].
  unfold bind at 1, put_self at 1. cbn [files fh logs procs].
  unfold bind at 1, with_open_w at 1. rewrite write_vc_run.
  cbn [self files fh logs procs tool_options set_verilator_file].
  destruct (scalar_in (mode_of (tool_options s)) modes).
  - cbn [self files fh logs procs]. rewrite insert_insert_eq.
    unfold bind at 1, with_open_w at 1, f_write at 1. cbn [self files fh logs procs].
    rewrite insert_insert_eq.
    unfold bind at 1, get_self at 1. cbn [self files fh logs procs].
    unfold with_open_w, f_write. cbn [self files fh logs procs].
    rewrite insert_insert_eq.
    rewrite (options_chunks_defaulted s).
    cbn [tool_options set_tool_options set_verilator_file toplevel app].
    rewrite defaulted_lists. reflexivity.
  - cbn [self files fh logs procs]. rewrite insert_insert_eq. reflexivity.
Qed.

Lemma vc_path_ends_c (s : Verilator) : endswith_char "c" (vc_path s) = true.
Proof.
  unfold vc_path. rewrite endswith_os_path_join.
  - now apply (endswith_app "c" (name s) ".vc").
  - now destruct (name s).
Qed.

Lemma makefile_not_vc (s : Verilator) : makefile_path s <> vc_path s.
Proof.
  intros E. pose proof (vc_path_ends_c s) as H. rewrite <- E in H.
  unfold makefile_path in H. now rewrite endswith_os_path_join in H.
Qed.

Lemma config_mk_not_vc (s : Verilator) : config_mk_path s <> vc_path s.
Proof.
  intros E. pose proof (vc_path_ends_c s) as H. rewrite <- E in H.
  unfold config_mk_path in H. now rewrite endswith_os_path_join in H.
Qed.

Lemma check_managed_parser_run (st : St Verilator) :
  check_managed_parser Value st =
  (Ok tt, mkSt (self st) (files st) (fh st)
            (logs st ++ managed_warning (tool_options (self st))) (procs st)).
Proof.
  unfold check_managed_parser, managed_warning, bind, get_self.
  destruct (members (tool_options (self st)) !! "cli_parser") as [v|].
  - destruct (scalar_eq_str v "managed"); simpl; [|reflexivity].
    unfold ret. rewrite app_nil_r. now destruct st.
  - simpl. unfold ret. rewrite app_nil_r. now destruct st.
Qed.

(** [configure_main] logs, checks the top level and goes on to
    [_write_config_files]. *)
Lemma verilator_configure_run (s : Verilator) fs h lg ps :
  configure_main (mkSt s fs h lg ps) =
  let lg' := lg ++ [(WARNING, DEPRECATED)] ++ managed_warning (tool_options s) in
  if truthy (toplevel s)
  then _write_config_files (mkSt s fs h lg' ps)
  else (Raise (RuntimeError ("'" +:+ name s +:+ "' miss a mandatory parameter 'top_module'")),
        mkSt s fs h lg' ps).
Proof.
  unfold Verilator.configure_main.
  unfold bind at 1, logger at 1. cbn [self files fh logs procs].
  unfold bind at 1. rewrite check_managed_parser_run. cbn [self files fh logs procs].
  unfold bind at 1, get_self at 1. cbn [self files fh logs procs].
  rewrite <- app_assoc.
  destruct (truthy (toplevel s)); reflexivity.
Qed.

(** C2 (amended): for every option set whose mode is not one of the eight
    allowed values, [_write_config_files] (and [configure_main], when the
    top level is given) raises the error that names the value and the allowed
    set.  By then the command file has been opened and holds the module
    directory line; the build file and the variables file are not written,
    nothing else on disk changes and no process is spawned. *)
Theorem illegal_mode_raises (s : Verilator) fs h lg ps (v : Scalar) :
  members (tool_options s) !! "mode" = Some v ->
  scalar_in v modes = false ->
  let r := _write_config_files (mkSt s fs h lg ps) in
  let r' := configure_main (mkSt s fs h lg ps) in
  fst r = Raise (ILLEGAL v) /\
  files (snd r) = <[vc_path s := ["--Mdir ." +:+ nl]]> fs /\
  files (snd r) !! makefile_path s = fs !! makefile_path s /\
  files (snd r) !! config_mk_path s = fs !! config_mk_path s /\
  procs (snd r) = ps /\
  (truthy (toplevel s) = true ->
   fst r' = Raise (ILLEGAL v) /\ files (snd r') = files (snd r) /\ procs (snd r') = ps).
Proof.
  intros Hv Hin r r'. subst r r'.
  assert (Hm : mode_of (tool_options s) = v) by (unfold mode_of; now rewrite Hv).
  rewrite verilator_configure_run. cbn zeta.
  rewrite !_write_config_files_run, Hm, Hin. cbn [fst snd files procs].
  split; [reflexivity|]. split; [reflexivity|].
  split; [rewrite lookup_insert_ne; [reflexivity | apply not_eq_sym, makefile_not_vc]|].
  split; [rewrite lookup_insert_ne; [reflexivity | apply not_eq_sym, config_mk_not_vc]|].
  split; [reflexivity|].
  now intros ->.
Qed.

Lemma vc_file_after (s : Verilator) fs h lg ps :
  scalar_in (mode_of (tool_options s)) modes = true ->
  files (snd (_write_config_files (mkSt s fs h lg ps))) !! vc_path s = Some (vc_chunks s).
Proof.
  intros H. rewrite _write_config_files_run, H. cbn [snd files].
  rewrite lookup_insert_ne by apply config_mk_not_vc.
  rewrite lookup_insert_ne by apply makefile_not_vc.
  apply lookup_insert_eq.
Qed.

Lemma mode_line_cases (o : ToolOptions) :
  mode_line (mode_of o)
  = match members o !! "mode" with
    | None => ["--cc" +:+ nl]
    | Some v =>
        if scalar_eq_str v "cc" then ["--cc" +:+ nl]
        else if scalar_eq_str v "sc" then ["--sc" +:+ nl]
        else []
    end.
Proof.
  unfold mode_of, mode_line. destruct (members o !! "mode") as [[m|b]|]; simpl;
    [|reflexivity|reflexivity].
  destruct (String.eqb_spec m "cc") as [->|_]; [reflexivity|].
  destruct (String.eqb_spec m "sc") as [->|_]; reflexivity.
Qed.

(** C6: when the mode is unset or one of the allowed values, the command
    file is written in full, chunk by chunk as below.  Its mode line is
    [--cc] when the mode is unset (and the options then hold mode = cc) or
    cc, [--sc] when it is sc, and absent for every other mode; its [--exe]
    line follows the top-module line unless [str(exe).lower()] is ["false"],
    so it is there when [exe] is absent. *)
Theorem command_file_mode_and_exe (s : Verilator) fs h lg ps :
  scalar_in (mode_of (tool_options s)) modes = true ->
  let r := _write_config_files (mkSt s fs h lg ps) in
  let o := tool_options s in
  let mode_chunks :=
    match members o !! "mode" with
    | None => ["--cc" +:+ nl]
    | Some v =>
        if scalar_eq_str v "cc" then ["--cc" +:+ nl]
        else if scalar_eq_str v "sc" then ["--sc" +:+ nl]
        else []
    end in
  let exe_chunks :=
    if String.eqb (lower (str_get (members o) "exe")) "false" then [] else ["--exe" +:+ nl] in
  fst r = Ok tt /\
  (forall vlt_files vlog_files opt_c_files,
     sort_files (src_files s) [] [] [] = (vlt_files, vlog_files, opt_c_files) ->
     files (snd r) !! vc_path s
     = Some (["--Mdir ." +:+ nl]
             ++ mode_chunks
             ++ libs_chunks o
             ++ incdir_chunks (incdirs s)
             ++ (if nonempty vlt_files then [join nl vlt_files +:+ nl] else [])
             ++ [join nl vlog_files +:+ nl]
             ++ ["--top-module " +:+ toplevel s +:+ nl]
             ++ exe_chunks
             ++ [join nl opt_c_files; nl; G_chunk (vlogparam s); D_chunk (vlogdefine s)])) /\
  (members o !! "mode" = None ->
   members (tool_options (self (snd r))) !! "mode" = Some (SStr "cc")) /\
  (members o !! "exe" = None -> exe_chunks = ["--exe" +:+ nl]).
Proof.
  intros H r o mode_chunks exe_chunks. subst r.
  split; [now rewrite _write_config_files_run, H|].
  split; [|split].
  - intros vlt vlog optc Hs. rewrite vc_file_after by exact H.
    unfold vc_chunks, options_chunks, sorted_chunks. rewrite Hs, mode_line_cases.
    fold o. fold mode_chunks. unfold exe_line. fold o.
    subst exe_chunks. now destruct (String.eqb _ "false").
  - intros Hn. rewrite _write_config_files_run, H. cbn [snd self].
    unfold configured. cbn [tool_options set_tool_options]. fold o.
    rewrite defaulted_mode. unfold mode_of. now rewrite Hn.
  - intros He. subst exe_chunks. unfold str_get. now rewrite He.
Qed.

Lemma is_true_defaulted (o : ToolOptions) (k : string) :
  k <> "mode" -> is_true (defaulted o) k = is_true o k.
Proof. intros Hk. unfold is_true, str_get. now rewrite defaulted_other. Qed.

Lemma run_tool_if {A} (b : bool) (cmd : string) (a : list string)
    (k : M Verilator A) (st : St Verilator) :
  bind (if b then _run_tool tool_ok cmd a else ret tt) (fun _ => k) st =
  if b
  then if tool_ok cmd a then k (spawned st cmd a)
       else (Raise (CalledProcessError cmd a), spawned st cmd a)
  else k st.
Proof.
  destruct b; [|reflexivity]. unfold bind, _run_tool. fold (spawned st cmd a).
  now destruct (tool_ok cmd a).
Qed.

Lemma run_tool_if_last (b : bool) (cmd : string) (a : list string) (st : St Verilator) :
  (if b then _run_tool tool_ok cmd a else ret tt) st =
  if b
  then if tool_ok cmd a then (Ok tt, spawned st cmd a)
       else (Raise (CalledProcessError cmd a), spawned st cmd a)
  else (Ok tt, st).
Proof. destruct b; reflexivity. Qed.

Lemma option_is_true_bind {A} (k : string) (K : bool -> M Verilator A) (st : St Verilator) :
  bind (option_is_true Value k) K st = K (is_true (tool_options (self st)) k) st.
Proof. reflexivity. Qed.

Lemma build_main_run (s : Verilator) fs h lg ps :
  build_main (mkSt s fs h lg ps) =
  let o := tool_options s in
  let s2 := set_tool_options (defaulted o) s in
  let lg' := lg ++ [(INFO, "Building simulation model")] in
  if scalar_in (mode_of o) modes
  then (outcome_of (snd (spawn (build_calls o))),
        mkSt s2 fs h lg' (ps ++ fst (spawn (build_calls o))))
  else (Raise (illegal_mode (mode_of o)), mkSt s2 fs h lg' ps).
Proof.
  cbn zeta. unfold Verilator.build_main.
  unfold bind at 1, logger at 1. cbn [self files fh logs procs].
  unfold bind at 1. rewrite default_mode_run. cbn [self files fh logs procs].
  unfold bind at 1, Verilator.mode_option at 1, bind at 1, get_self at 1.
  cbn [self tool_options set_tool_options]. rewrite defaulted_mode.
  unfold ret at 1. unfold bind at 1.
  destruct (scalar_in (mode_of (tool_options s)) modes); [|reflexivity].
  cbn [negb]. unfold ret at 1. fold phony.
  rewrite run_tool_if, !option_is_true_bind, !run_tool_if, !option_is_true_bind.
  rewrite !run_tool_if, !option_is_true_bind, !run_tool_if_last.
  unfold spawned. cbn [self files fh logs procs tool_options set_tool_options].
  rewrite !is_true_defaulted by discriminate.
  unfold build_calls.
  destruct (scalar_eq_str (mode_of (tool_options s)) "none"),
    (is_true (tool_options s) "gen-xml"),
    (is_true (tool_options s) "gen-dpi-hdr"),
    (is_true (tool_options s) "gen-preprocess");
    cbn [negb app spawn];
    repeat match goal with
      | |- context [tool_ok ?c ?a] => destruct (tool_ok c a); cbn [self files fh logs procs]
      end;
    cbn [fst snd outcome_of]; rewrite <- ?app_assoc, ?app_nil_r; reflexivity.
Qed.

Lemma args_extend_run (l : list string) (st : St Verilator) :
  args_extend Value l st =
  (Ok tt, mkSt (set_args (args (self st) ++ l) (self st)) (files st) (fh st) (logs st)
            (procs st)).
Proof. reflexivity. Qed.

Lemma for_each_args_extend (g : string * Value -> string) (l : list (string * Value))
    (st : St Verilator) :
  for_each l (fun kv => args_extend Value [g kv]) st =
  (Ok tt, mkSt (set_args (args (self st) ++ map g l) (self st)) (files st) (fh st)
            (logs st) (procs st)).
Proof.
  revert st. induction l as [|kv l IH]; intros st.
  - simpl. unfold ret. rewrite app_nil_r. destruct st as [[] ? ? ? ?]. reflexivity.
  - simpl. unfold bind. rewrite args_extend_run, IH.
    cbn [self files fh logs procs args set_args]. rewrite <- app_assoc. reflexivity.
Qed.

Lemma run_main_run (s : Verilator) fs h lg ps :
  run_main (mkSt s fs h lg ps) =
  let o := tool_options s in
  let a := runtime_args s in
  let s3 := set_tool_options (defaulted o) (set_args a s) in
  let lg' := lg ++ managed_warning o in
  if scalar_in (mode_of o) no_run
  then (Ok tt, mkSt s3 fs h lg' ps)
  else (if tool_ok ("./V" +:+ toplevel s) a
        then Ok tt else Raise (CalledProcessError ("./V" +:+ toplevel s) a),
        mkSt s3 fs h (lg' ++ [(INFO, "Running simulation")])
          (ps ++ [("./V" +:+ toplevel s, a)])).
Proof.
  cbn zeta. unfold Verilator.run_main.
  unfold bind at 1. rewrite check_managed_parser_run. cbn [self files fh logs procs].
  unfold bind at 1, get_self at 1. cbn [self files fh logs procs].
  unfold bind at 1, put_self at 1. cbn [self files fh logs procs].
  unfold bind at 1. rewrite (for_each_args_extend plus_arg).
  cbn [self files fh logs procs args set_args].
  unfold bind at 1. rewrite (for_each_args_extend cmdline_arg).
  cbn [self files fh logs procs args set_args].
  unfold bind at 1. rewrite args_extend_run.
  cbn [self files fh logs procs args set_args].
  unfold bind at 1. rewrite default_mode_run.
  cbn [self files fh logs procs tool_options set_tool_options set_args].
  unfold bind at 1, Verilator.mode_option at 1, bind at 1, get_self at 1.
  cbn [self tool_options set_tool_options]. rewrite defaulted_mode.
  unfold ret at 1. fold no_run. rewrite <- app_assoc. fold (runtime_args s).
  destruct (scalar_in (mode_of (tool_options s)) no_run); [reflexivity|].
  unfold bind, logger, get_self, _run_tool.
  cbn [self files fh logs procs toplevel args set_tool_options].
  now destruct (tool_ok _ _).
Qed.

Lemma scalar_in_str (m : string) (l : list string) :
  In m l -> scalar_in (SStr m) l = true.
Proof.
  intros Hin. unfold scalar_in. apply existsb_exists. exists m.
  split; [exact Hin | apply String.eqb_refl].
Qed.

Lemma spawn_all_ok (calls : list (string * list string)) :
  Forall (fun c => tool_ok (fst c) (snd c) = true) calls -> spawn calls = (calls, None).
Proof.
  induction 1 as [|[c a] calls Hc Hl IH]; [reflexivity|].
  cbn [VerilatorSpec.spawn]. cbn [fst snd] in Hc. now rewrite Hc, IH.
Qed.

(** C7 (amended): [run_main] assembles [self.args] as all plusargs
    [+key=value], then all command-line arguments [--key=value], then
    [run_options] as they are; in the modes dpi-hdr-only, lint-only,
    preprocess-only and xml-only it spawns no process, and in every other
    mode it spawns the model with these arguments.  In mode lint-only
    [build_main] calls [make lint-only] first and then, in this order,
    [make xml-only] if gen-xml reads as true, [make dpi-hdr-only] if
    gen-dpi-hdr does and [make preprocess-only] if gen-preprocess does, each
    call only when the ones before it succeeded: all of them when every call
    succeeds, [make lint-only] alone when it fails or when none of the three
    options reads as true. *)
Theorem run_arguments_and_lint_only (s : Verilator) fs h lg ps :
  let o := tool_options s in
  let r := run_main (mkSt s fs h lg ps) in
  let b := build_main (mkSt s fs h lg ps) in
  let a :=
    map (fun kv => "+" +:+ fst kv +:+ "=" +:+ _param_value_str (snd kv) "") (plusarg s)
    ++ map (fun kv => "--" +:+ fst kv +:+ "=" +:+ _param_value_str (snd kv) "") (cmdlinearg s)
    ++ default [] (lists o !! "run_options") in
  let calls :=
    [("make", ["lint-only"])]
    ++ (if is_true o "gen-xml" then [("make", ["xml-only"])] else [])
    ++ (if is_true o "gen-dpi-hdr" then [("make", ["dpi-hdr-only"])] else [])
    ++ (if is_true o "gen-preprocess" then [("make", ["preprocess-only"])] else []) in
  args (self (snd r)) = a /\
  (forall m, members o !! "mode" = Some (SStr m) -> In m no_run ->
     fst r = Ok tt /\ procs (snd r) = ps) /\
  (scalar_in (mode_of o) no_run = false ->
     procs (snd r) = ps ++ [("./V" +:+ toplevel s, a)]) /\
  (members o !! "mode" = Some (SStr "lint-only") ->
     procs (snd b) = ps ++ fst (spawn calls) /\
     fst b = outcome_of (snd (spawn calls)) /\
     (Forall (fun c => tool_ok (fst c) (snd c) = true) calls ->
      procs (snd b) = ps ++ calls /\ fst b = Ok tt) /\
     (tool_ok "make" ["lint-only"] = false ->
      procs (snd b) = ps ++ [("make", ["lint-only"])] /\ fst b <> Ok tt) /\
     (is_true o "gen-xml" = false -> is_true o "gen-dpi-hdr" = false ->
      is_true o "gen-preprocess" = false ->
      procs (snd b) = ps ++ [("make", ["lint-only"])])).
Proof.
  intros o r b a calls. subst r b.
  rewrite run_main_run, build_main_run. cbn zeta. fold o.
  change (runtime_args s) with a.
  split; [now destruct (scalar_in (mode_of o) no_run)|].
  split; [|split].
  - intros m Hm Hin. unfold mode_of. rewrite Hm.
    change (default (SStr "cc") (Some (SStr m))) with (SStr m).
    now rewrite (scalar_in_str m no_run Hin).
  - now intros ->.
  - intros Hm.
    assert (Hmode : mode_of o = SStr "lint-only") by (unfold mode_of; now rewrite Hm).
    assert (Hcalls : build_calls o = calls).
    { unfold build_calls. rewrite Hmode. reflexivity. }
    rewrite Hmode, Hcalls.
    change (scalar_in (SStr "lint-only") modes) with true. cbv iota. cbn [fst snd procs].
    split; [reflexivity|]. split; [reflexivity|]. split; [|split].
    + intros Hall. rewrite (spawn_all_ok calls Hall). cbn [fst snd outcome_of]. auto.
    + intros Hfail. subst calls. cbn [app VerilatorSpec.spawn]. rewrite Hfail.
      cbn [fst snd outcome_of]. split; [reflexivity | discriminate].
    + intros H1 H2 H3. subst calls. rewrite H1, H2, H3. cbn [app VerilatorSpec.spawn].
      now destruct (tool_ok "make" ["lint-only"]).
Qed.

Lemma defaulted_unset (o : ToolOptions) :
  members o !! "mode" = None -> defaulted o = with_mode_cc o.
Proof. intros H. unfold defaulted. now rewrite H. Qed.

Lemma defaulted_set (o : ToolOptions) (v : Scalar) :
  members o !! "mode" = Some v -> defaulted o = o.
Proof. intros H. unfold defaulted. now rewrite H. Qed.

Lemma _write_config_files_options (st : St Verilator) :
  tool_options (self (snd (_write_config_files st))) = defaulted (tool_options (self st)).
Proof.
  destruct st as [s fs h lg ps]. rewrite _write_config_files_run. cbn [self].
  now destruct (scalar_in _ modes).
Qed.

Lemma build_main_options (st : St Verilator) :
  tool_options (self (snd (build_main st))) = defaulted (tool_options (self st)).
Proof.
  destruct st as [s fs h lg ps]. rewrite build_main_run. cbn zeta. cbn [self].
  now destruct (scalar_in _ modes).
Qed.

Lemma run_main_options (st : St Verilator) :
  tool_options (self (snd (run_main st))) = defaulted (tool_options (self st)).
Proof.
  destruct st as [s fs h lg ps]. rewrite run_main_run. cbn zeta. cbn [self].
  now destruct (scalar_in _ no_run).
Qed.

Lemma configure_main_options (st : St Verilator) :
  tool_options (self (snd (configure_main st)))
  = if truthy (toplevel (self st)) then defaulted (tool_options (self st))
    else tool_options (self st).
Proof.
  destruct st as [s fs h lg ps]. rewrite verilator_configure_run. cbn zeta. cbn [self].
  destruct (truthy (toplevel s)); [|reflexivity].
  now rewrite _write_config_files_options.
Qed.

(** A pass leaves options that have a mode as they are. *)
Lemma run_pass_keeps (p : pass) (st : St Verilator) (v : Scalar) :
  members (tool_options (self st)) !! "mode" = Some v ->
  tool_options (self (snd (run_pass p st))) = tool_options (self st).
Proof.
  intros Hv. destruct p; cbn [run_pass].
  - rewrite configure_main_options. destruct (truthy _); [|reflexivity].
    now apply defaulted_set with v.
  - rewrite build_main_options. now apply defaulted_set with v.
  - rewrite run_main_options. now apply defaulted_set with v.
Qed.

Lemma after_keeps (l : list pass) (st : St Verilator) (v : Scalar) :
  members (tool_options (self st)) !! "mode" = Some v ->
  tool_options (self (after l st)) = tool_options (self st).
Proof.
  revert st. induction l as [|p l IH]; intros st Hv; [reflexivity|].
  cbn [after fold_left]. fold (after l (snd (run_pass p st))).
  rewrite IH; rewrite (run_pass_keeps p st v Hv); [reflexivity | exact Hv].
Qed.

(** C10: on options without a mode, [_write_config_files] (hence
    [configure_main], once the top level is given), [build_main] and
    [run_main] each leave [self.tool_options] with mode = cc inserted, and
    the key stays there through every later pass on the same object. *)
Theorem default_mode_persists (s : Verilator) fs h lg ps :
  members (tool_options s) !! "mode" = None ->
  let st := mkSt s fs h lg ps in
  let cc := with_mode_cc (tool_options s) in
  tool_options (self (snd (_write_config_files st))) = cc /\
  tool_options (self (snd (build_main st))) = cc /\
  tool_options (self (snd (run_main st))) = cc /\
  (truthy (toplevel s) = true -> tool_options (self (snd (configure_main st))) = cc) /\
  members cc !! "mode" = Some (SStr "cc") /\
  (forall (p : pass) (later : list pass),
     (p = Configure -> truthy (toplevel s) = true) ->
     tool_options (self (after (p :: later) st)) = cc).
Proof.
  intros Hn st cc. subst st cc.
  assert (Hcc : members (with_mode_cc (tool_options s)) !! "mode" = Some (SStr "cc"))
    by apply lookup_insert_eq.
  split; [now rewrite _write_config_files_options, defaulted_unset|].
  split; [now rewrite build_main_options, defaulted_unset|].
  split; [now rewrite run_main_options, defaulted_unset|].
  split; [intros Ht; rewrite configure_main_options; cbn [self]; rewrite Ht;
          now apply defaulted_unset|].
  split; [exact Hcc|].
  intros p later Hp. cbn [after fold_left].
  fold (after later (snd (run_pass p (mkSt s fs h lg ps)))).
  assert (H1 : tool_options (self (snd (run_pass p (mkSt s fs h lg ps))))
               = with_mode_cc (tool_options s)).
  { destruct p; cbn [run_pass].
    - rewrite configure_main_options. cbn [self]. rewrite (Hp eq_refl).
      now apply defaulted_unset.
    - now rewrite build_main_options, defaulted_unset.
    - now rewrite run_main_options, defaulted_unset. }
  rewrite (after_keeps later _ (SStr "cc")); [exact H1 | now rewrite H1].
Qed.

Lemma sort_files_skip (l1 l2 : list File.t) (f : File.t) (a b c : list string) :
  sorted (File.file_type f) = false ->
  sort_files (l1 ++ f :: l2) a b c = sort_files (l1 ++ l2) a b c.
Proof.
  intros Hf. revert a b c. induction l1 as [|g l1 IH]; intros a b c.
  - unfold sorted in Hf. cbn [app sort_files].
    destruct (startswith _ "systemVerilogSource" || startswith _ "verilogSource");
      [discriminate|].
    destruct (str_in _ _); [discriminate|].
    destruct (String.eqb (File.file_type f) "vlt"); [discriminate|].
    now destruct (String.eqb (File.file_type f) "user").
  - cbn [app sort_files].
    destruct (startswith _ "systemVerilogSource" || startswith _ "verilogSource");
      [apply IH|].
    destruct (str_in _ _); [apply IH|].
    destruct (String.eqb (File.file_type g) "vlt"); [apply IH|].
    destruct (String.eqb (File.file_type g) "user"); apply IH.
Qed.

(** A file whose type has no place is dropped without a word: configuring
    with it and without it gives the same result, files, log and processes. *)
Lemma unsorted_file_is_dropped (s : Verilator) (l1 l2 : list File.t) (f : File.t)
    fs h lg ps :
  src_files s = l1 ++ f :: l2 ->
  sorted (File.file_type f) = false ->
  let r := configure_main (mkSt s fs h lg ps) in
  let r' := configure_main (mkSt (set_src_files (l1 ++ l2) s) fs h lg ps) in
  fst r = fst r' /\ files (snd r) = files (snd r') /\ logs (snd r) = logs (snd r')
  /\ procs (snd r) = procs (snd r').
Proof.
  intros Hs Hf r r'. subst r r'.
  rewrite !verilator_configure_run. cbn zeta.
  cbn [toplevel tool_options name set_src_files].
  destruct (truthy (toplevel s)); [|now repeat split].
  rewrite !_write_config_files_run. cbn [tool_options set_src_files].
  assert (Hvc : vc_chunks (set_src_files (l1 ++ l2) s) = vc_chunks s).
  { unfold vc_chunks, options_chunks. cbn [tool_options incdirs src_files set_src_files].
    rewrite Hs, sort_files_skip by exact Hf.
    now destruct (sort_files (l1 ++ l2) [] [] []) as [[? ?] ?]. }
  destruct (scalar_in _ modes); cbn [fst snd files logs procs].
  - rewrite Hvc. now repeat split.
  - now repeat split.
Qed.

End Facts.

(** C2 (counterexample): with the mode ["fast"] configuration raises, and
    the command file, which was not there before, is there afterwards. *)
Lemma illegal_mode_leaves_command_file :
  let opts := mkToolOptions {[ "mode" := SStr "fast" ]} ∅ in
  let s : Verilator string :=
    mkVerilator "top" "build" "top" opts [] [] [] [] [] [] [] None in
  let st := mkSt s ∅ [] [] [] in
  let r := configure_main string (fun v _ => v) st in
  fst r = Raise (RuntimeError "Illegal verilator mode fast. Allowed values are binary, cc, dpi-hdr-only, lint-only, none, preprocess-only, sc, xml-only") /\
  files st !! "build/top.vc" = None /\
  files (snd r) !! "build/top.vc" = Some ["--Mdir ." +:+ nl] /\
  files (snd r) <> files st.
Proof.
  assert (H : files (snd (configure_main string (fun v _ => v)
                (mkSt (mkVerilator "top" "build" "top"
                         (mkToolOptions {[ "mode" := SStr "fast" ]} ∅)
                         [] [] [] [] [] [] [] None) ∅ [] [] []))) !! "build/top.vc"
              = Some ["--Mdir ." +:+ nl]) by (vm_compute; reflexivity).
  cbn zeta. split; [vm_compute; reflexivity|].
  split; [reflexivity|]. split; [exact H|].
  intros E. rewrite E in H. discriminate H.
Qed.

Lemma illegal_mode_raises_witness :
  let opts := mkToolOptions {[ "mode" := SStr "fast" ]} ∅ in
  let s : Verilator string :=
    mkVerilator "top" "build" "top" opts [] [] [] [] [] [] [] None in
  let r := _write_config_files string (fun v _ => v) (mkSt s ∅ [] [] []) in
  fst r = Raise (ILLEGAL (SStr "fast")) /\
  files (snd r) = <[vc_path s := ["--Mdir ." +:+ nl]]> ∅.
Proof.
  cbn zeta.
  pose proof (illegal_mode_raises string (fun v _ => v)
                (mkVerilator "top" "build" "top"
                   (mkToolOptions {[ "mode" := SStr "fast" ]} ∅)
                   [] [] [] [] [] [] [] None)
                ∅ [] [] [] (SStr "fast") eq_refl eq_refl) as H.
  cbn zeta in H. destruct H as (H1 & H2 & _). split; [exact H1 | exact H2].
Defined.

(** Scenario B: mode unset, one HDL file, no [exe] option. *)
Lemma command_file_mode_and_exe_witness :
  let s : Verilator string :=
    mkVerilator "top" "build" "top" (mkToolOptions ∅ ∅) [] [] [] []
      [File.mk "top.v" "verilogSource" ""] [] [] None in
  let r := _write_config_files string (fun v _ => v) (mkSt s ∅ [] [] []) in
  fst r = Ok tt /\
  files (snd r) !! vc_path s
  = Some ["--Mdir ." +:+ nl; "--cc" +:+ nl; "top.v" +:+ nl; "--top-module top" +:+ nl;
          "--exe" +:+ nl; ""; nl; ""; ""] /\
  members (tool_options (self (snd r))) !! "mode" = Some (SStr "cc").
Proof.
  cbn zeta.
  pose proof (command_file_mode_and_exe string (fun v _ => v)
                (mkVerilator "top" "build" "top" (mkToolOptions ∅ ∅) [] [] [] []
                   [File.mk "top.v" "verilogSource" ""] [] [] None)
                ∅ [] [] [] eq_refl) as H.
  cbn zeta in H. destruct H as (H1 & H2 & H3 & _).
  split; [exact H1|]. split; [exact (H2 [] ["top.v"] [] eq_refl) | exact (H3 eq_refl)].
Defined.

(** C7 (counterexample): in mode lint-only with gen-xml set, [build_main]
    runs [make lint-only] and then [make xml-only]. *)
Lemma lint_only_build_runs_more :
  let opts := mkToolOptions {[ "mode" := SStr "lint-only"; "gen-xml" := SBool true ]} ∅ in
  let s : Verilator string :=
    mkVerilator "top" "build" "top" opts [] [] [] [] [] [] [] None in
  let b := build_main string (fun _ _ => true) (mkSt s ∅ [] [] []) in
  fst b = Ok tt /\
  procs (snd b) = [("make", ["lint-only"]); ("make", ["xml-only"])] /\
  procs (snd b) <> [("make", ["lint-only"])].
Proof.
  cbn zeta. split; [vm_compute; reflexivity|].
  assert (H : procs (snd (build_main string (fun _ _ => true)
                (mkSt (mkVerilator "top" "build" "top"
                         (mkToolOptions
                            {[ "mode" := SStr "lint-only"; "gen-xml" := SBool true ]} ∅)
                         [] [] [] [] [] [] [] None) ∅ [] [] [])))
              = [("make", ["lint-only"]); ("make", ["xml-only"])])
    by (vm_compute; reflexivity).
  split; [exact H|]. rewrite H. discriminate.
Qed.

Lemma run_arguments_and_lint_only_witness :
  let opts := mkToolOptions {[ "mode" := SStr "lint-only"; "gen-xml" := SBool true ]}
                {[ "run_options" := ["-v"] ]} in
  let s : Verilator string :=
    mkVerilator "top" "build" "top" opts [] [] [("seed", "1")] [("trace", "on")] [] [] [] None in
  let r := run_main string (fun v _ => v) (fun _ _ => true) (mkSt s ∅ [] [] []) in
  let b := build_main string (fun _ _ => true) (mkSt s ∅ [] [] []) in
  args (self (snd r)) = ["+seed=1"; "--trace=on"; "-v"] /\
  procs (snd r) = [] /\
  procs (snd b) = [("make", ["lint-only"]); ("make", ["xml-only"])] /\
  fst b = Ok tt.
Proof.
  cbn zeta.
  pose proof (run_arguments_and_lint_only string (fun v _ => v) (fun _ _ => true)
                (mkVerilator "top" "build" "top"
                   (mkToolOptions {[ "mode" := SStr "lint-only"; "gen-xml" := SBool true ]}
                      {[ "run_options" := ["-v"] ]})
                   [] [] [("seed", "1")] [("trace", "on")] [] [] [] None)
                ∅ [] [] []) as H.
  cbn zeta in H. destruct H as (H1 & H2 & _ & H4).
  split; [exact H1|].
  split; [exact (proj2 (H2 "lint-only" eq_refl (or_intror (or_introl eq_refl))))|].
  destruct (H4 eq_refl) as (_ & _ & Hall & _).
  apply Hall. repeat (apply Forall_cons_2; [reflexivity|]). apply Forall_nil_2.
Defined.

Lemma default_mode_persists_witness :
  let s : Verilator string :=
    mkVerilator "top" "build" "top" (mkToolOptions ∅ ∅) [] [] [] [] [] [] [] None in
  let st := mkSt s ∅ [] [] [] in
  tool_options (self (snd (build_main string (fun _ _ => true) st)))
  = with_mode_cc (mkToolOptions ∅ ∅) /\
  tool_options (self (after string (fun v _ => v) (fun _ _ => true) [Build; Run; Configure] st))
  = with_mode_cc (mkToolOptions ∅ ∅).
Proof.
  cbn zeta.
  pose proof (default_mode_persists string (fun v _ => v) (fun _ _ => true)
                (mkVerilator "top" "build" "top" (mkToolOptions ∅ ∅) [] [] [] [] [] [] [] None)
                ∅ [] [] [] eq_refl) as H.
  cbn zeta in H. destruct H as (_ & H2 & _ & _ & _ & H6).
  split; [exact H2|].
  apply (H6 Build [Run; Configure]). discriminate.
Defined.

End VerilatorFacts.

(** ** File classification in the two backends *)

Section Classification.
Variable Value : Type.
Variable _param_value_str : Value -> string -> string.
Variable get_file_type : File.t -> string.


End Classification.



(** * Further properties *)

(** ** EdaCommands *)

Module UtilsMore.
Import Utils UtilsSpec UtilsFacts UtilsLayout.

Lemma write_files (outfile : string) (ec : EdaCommands) fs h lg ps :
  snd (write outfile (mkSt ec fs h lg ps))
  = mkSt ec (<[outfile := written ec]> fs) h lg ps.
Proof.
  unfold written. destruct (default_target ec) as [t|] eqn:Hd.
  - destruct (truthy t) eqn:Ht.
    + now rewrite (write_ok _ _ _ _ _ _ t Hd Ht).
    + now rewrite (write_falsy _ _ _ _ _ _ t Hd Ht).
  - now rewrite (write_unset _ _ _ _ _ _ Hd).
Qed.

(** X1: with a default target set, a command added with [add] shows up in
    the file [write] produces as its rule appended at the end: the text
    written before stays a prefix. *)
Theorem write_after_add (ec : EdaCommands) (cmd tgts deps oo : list string)
    (outfile t : string) fs h lg ps :
  default_target ec = Some t ->
  truthy t = true ->
  exists text,
    content (snd (write outfile (mkSt ec fs h lg ps))) outfile = Some text /\
    content (snd (write outfile (mkSt (add cmd tgts deps oo ec) fs h lg ps))) outfile
    = Some (text +:+ String.concat "" (command_chunks (mkCommand cmd tgts deps oo))).
Proof.
  intros Hd Ht. rewrite !write_files. unfold content. cbn [files].
  rewrite !lookup_insert_eq. eexists. split; [reflexivity|].
  unfold written. cbn [default_target commands header add]. rewrite Hd, Ht.
  rewrite flat_map_app. cbn [flat_map]. rewrite app_nil_r.
  rewrite !concat_empty_cons, concat_empty_app, !app_assoc_str. reflexivity.
Qed.

(** X2: [write] replaces the output file and nothing else: every other
    path keeps its content, what the output file held before does not matter,
    and writing once more returns the same outcome and leaves the state as it
    is.  The commands, the log and the processes are untouched. *)
Theorem write_replaces_the_file (ec : EdaCommands) (outfile : string) fs h lg ps :
  let st := mkSt ec fs h lg ps in
  let st' := snd (write outfile st) in
  (forall p, p <> outfile -> files st' !! p = fs !! p) /\
  (forall old, files (snd (write outfile (mkSt ec (<[outfile := old]> fs) h lg ps)))
               = files st') /\
  write outfile st' = (fst (write outfile st), st') /\
  self st' = ec /\ logs st' = lg /\ procs st' = ps.
Proof.
  cbn zeta. rewrite !write_files. cbn [files self logs procs].
  split; [intros p Hp; now rewrite lookup_insert_ne|].
  split; [intros old; rewrite write_files; cbn [files]; now rewrite insert_insert_eq|].
  split; [|auto].
  rewrite (surjective_pairing (write outfile (mkSt ec (<[outfile:=written ec]> fs) h lg ps))).
  rewrite write_files, insert_insert_eq. f_equal.
  unfold write, bind, get_self, with_open_w. cbn [self files fh logs procs].
  unfold written.
  destruct (default_target ec) as [t|]; [|reflexivity].
  unfold f_write at 1 3. cbn [self files fh logs procs].
  destruct (truthy t); [|reflexivity]. cbn [negb].
  unfold bind, f_write at 1 2. cbn [self files fh logs procs].
  now rewrite !(for_each_wrote _ command_chunks _ write_command_wrote).
Qed.

(** X3: when the default target is unset or empty, [write] raises only
    after the output file has been opened and the header written: the
    previous content is lost and the file holds the header alone. *)
Theorem failed_write_truncates (ec : EdaCommands) (outfile : string)
    (old : list string) fs h lg ps :
  (forall t, default_target ec = Some t -> truthy t = false) ->
  let r := write outfile (mkSt ec (<[outfile := old]> fs) h lg ps) in
  (exists e, fst r = Raise e) /\
  files (snd r) !! outfile = Some [header ec].
Proof.
  intros Hf. cbn zeta. destruct (default_target ec) as [t|] eqn:Hd.
  - rewrite (write_falsy _ _ _ _ _ _ t Hd (Hf t eq_refl)). cbn [fst snd files].
    split; [eauto | apply lookup_insert_eq].
  - rewrite (write_unset _ _ _ _ _ _ Hd). cbn [fst snd files].
    split; [eauto | apply lookup_insert_eq].
Qed.

Lemma failed_write_truncates_witness :
  let r := write "Makefile" (mkSt init (<["Makefile" := ["all: old" +:+ nl]]> ∅) [] [] []) in
  (exists e, fst r = Raise e) /\
  files (snd r) !! "Makefile" = Some ["#Auto generated by Edalize" +:+ nl +:+ nl].
Proof.
  apply (failed_write_truncates init "Makefile" ["all: old" +:+ nl] ∅ [] [] []).
  intros t H. discriminate H.
Defined.

Lemma write_after_add_witness :
  exists text,
    content (snd (write "Makefile" (mkSt (set_default_target "top" init) ∅ [] [] [])))
      "Makefile" = Some text /\
    content (snd (write "Makefile"
                    (mkSt (add ["touch"; "top"] ["top"] ["top.v"] ["build"]
                             (set_default_target "top" init)) ∅ [] [] [])))
      "Makefile"
    = Some (text +:+ String.concat ""
                       (command_chunks (mkCommand ["touch"; "top"] ["top"] ["top.v"] ["build"]))).
Proof.
  apply (write_after_add (set_default_target "top" init) ["touch"; "top"] ["top"] ["top.v"]
           ["build"] "Makefile" "top"); reflexivity.
Defined.

End UtilsMore.

(** ** Radiant *)

Module RadiantMore.
Import Radiant RadiantSpec RadiantFacts RadiantFiles.

Section More.
Variable Value : Type.
Variable fmt : Value -> string.
Variable _param_value_str : Value -> string -> string.
Variable get_file_type : File.t -> string.
Variable tool_ok : string -> list string -> bool.

Abbreviation Radiant := (Radiant Value).
Abbreviation src_file_filter := (src_file_filter Value get_file_type).
Abbreviation pdc_loop := (pdc_loop Value).
Abbreviation configure_main := (configure_main Value fmt _param_value_str get_file_type).
Abbreviation build_main := (build_main Value tool_ok).
Abbreviation filter_line := (filter_line get_file_type).
Abbreviation filter_log := (filter_log get_file_type).
Abbreviation script_chunks := (script_chunks Value fmt _param_value_str get_file_type).

(** [configure_main] when the device option is missing: the lookup raises
    inside the [with] block, before the first write. *)
Lemma radiant_configure_no_part (s : Radiant) fs h lg ps :
  members (tool_options s) !! "part" = None ->
  configure_main (mkSt s fs h lg ps) =
  (Raise (KeyError "part"),
   mkSt s (<[script_path s := []]> fs) h (lg ++ pdc_warnings (src_files s) None) ps).
Proof.
  intros Hpart. unfold Radiant.configure_main, bind at 1, get_self at 1. simpl.
  unfold bind at 1.
  destruct (pdc_loop_run Value (src_files s) None (mkSt s fs h lg ps)) as [r ->].
  unfold bind at 1, with_open_w at 1.
  unfold bind at 1, part_option at 1, bind at 1, get_self at 1. simpl.
  rewrite Hpart. unfold raise. cbn [self files fh logs procs wrote_logged].
  unfold script_path. now rewrite insert_insert_eq, app_nil_r.
Qed.

(** X4: without the [part] option [configure_main] raises [KeyError] for
    that key.  The project script has been opened by then, so it is left
    empty; the run script is not touched, no process is spawned and the
    backend's fields are unchanged. *)
Theorem configure_without_part (s : Radiant) fs h lg ps :
  members (tool_options s) !! "part" = None ->
  let r := configure_main (mkSt s fs h lg ps) in
  fst r = Raise (KeyError "part") /\
  files (snd r) = <[script_path s := []]> fs /\
  files (snd r) !! run_script_path s = fs !! run_script_path s /\
  self (snd r) = s /\ procs (snd r) = ps.
Proof.
  intros Hpart. cbn zeta. rewrite radiant_configure_no_part by exact Hpart.
  cbn [fst snd files self procs]. repeat split.
  rewrite lookup_insert_ne; [reflexivity | apply not_eq_sym, script_paths_differ].
Qed.

(** X5: [configure_main] touches the two script files only, spawns
    nothing and leaves the backend's fields as they are; configuring again
    from the state it leaves gives the same outcome and the same files. *)
Theorem radiant_configure_overwrites (s : Radiant) fs h lg ps :
  let r := configure_main (mkSt s fs h lg ps) in
  self (snd r) = s /\ procs (snd r) = ps /\
  (forall p, p <> script_path s -> p <> run_script_path s ->
             files (snd r) !! p = fs !! p) /\
  fst (configure_main (snd r)) = fst r /\
  files (snd (configure_main (snd r))) = files (snd r).
Proof.
  cbn zeta.
  destruct (members (tool_options s) !! "part") as [part|] eqn:Hpart.
  - rewrite (radiant_configure_run Value fmt _param_value_str get_file_type
               s fs h lg ps part Hpart).
    cbn [fst snd self procs files].
    rewrite (radiant_configure_run Value fmt _param_value_str get_file_type
               s _ h _ ps part Hpart).
    cbn [fst snd self procs files].
    split; [reflexivity|]. split; [reflexivity|].
    split; [intros p H1 H2; now rewrite !lookup_insert_ne|].
    split; [reflexivity|].
    apply map_eq. intros i. rewrite !lookup_insert.
    repeat case_decide; congruence.
  - rewrite radiant_configure_no_part by exact Hpart.
    cbn [fst snd self procs files].
    rewrite radiant_configure_no_part by exact Hpart.
    cbn [fst snd self procs files].
    split; [reflexivity|]. split; [reflexivity|].
    split; [intros p H1 H2; now rewrite !lookup_insert_ne|].
    split; [reflexivity|]. now rewrite insert_insert_eq.
Qed.

Lemma pdc_warnings_some (l : list File.t) (p : string) :
  truthy p = true -> pdc_warnings l (Some p) = repeat MULTIPLE_PDC (count_pdc l).
Proof.
  intros Hp. induction l as [|f l IH]; [reflexivity|].
  unfold count_pdc. cbn [pdc_warnings List.filter].
  destruct (String.eqb (File.file_type f) "PDC"); [|exact IH].
  cbn [pdc_truthy length repeat]. rewrite Hp. now rewrite IH.
Qed.

Lemma pdc_warnings_none (l : list File.t) :
  Forall (fun f => truthy (File.name f) = true) l ->
  pdc_warnings l None = repeat MULTIPLE_PDC (pred (count_pdc l)).
Proof.
  induction 1 as [|f l Hf Hl IH]; [reflexivity|].
  unfold count_pdc. cbn [pdc_warnings List.filter].
  destruct (String.eqb (File.file_type f) "PDC"); [|exact IH].
  cbn [pdc_truthy length pred]. now apply pdc_warnings_some.
Qed.

(** X6: when the device is given and every file has a name, configuring
    logs the warning about several constraint files once for each PDC file
    after the first, before any message of the file filter. *)
Theorem one_warning_per_further_pdc_file (s : Radiant) fs h lg ps (part : Scalar) :
  members (tool_options s) !! "part" = Some part ->
  Forall (fun f => truthy (File.name f) = true) (src_files s) ->
  logs (snd (configure_main (mkSt s fs h lg ps)))
  = lg ++ repeat MULTIPLE_PDC (pred (count_pdc (src_files s)))
       ++ flat_map filter_log (src_files s).
Proof.
  intros Hpart Hn.
  rewrite (radiant_configure_run Value fmt _param_value_str get_file_type
             s fs h lg ps part Hpart).
  cbn [snd logs]. now rewrite pdc_warnings_none.
Qed.

(** X7: [src_file_filter] always returns, and the line it returns is
    non-empty exactly when the file's type is one of those the backend knows
    a command for. *)
Theorem source_line_iff_recognized (f : File.t) (st : St Radiant) :
  exists line,
    fst (src_file_filter f st) = Ok line /\
    truthy line = recognized (get_file_type f).
Proof.
  exists (filter_line f). split; [apply src_file_filter_total|].
  unfold RadiantSpec.filter_line, recognized, str_in, file_types.
  cbn [dict_get existsb].
  repeat match goal with
    | |- context [String.eqb ?a ?b] => destruct (String.eqb a b)
    end; reflexivity.
Qed.

(** [build_main], step by step. *)
Lemma radiant_build_run (s : Radiant) fs h lg ps :
  let c1 := ("radiantc", [name s +:+ ".tcl"]) in
  let c2 := ("radiantc", [name s +:+ "_run.tcl"]) in
  build_main (mkSt s fs h lg ps) =
  (if tool_ok (fst c1) (snd c1)
   then if tool_ok (fst c2) (snd c2) then Ok tt
        else Raise (CalledProcessError (fst c2) (snd c2))
   else Raise (CalledProcessError (fst c1) (snd c1)),
   mkSt s fs h lg (ps ++ (if tool_ok (fst c1) (snd c1) then [c1; c2] else [c1]))).
Proof.
  cbn zeta. unfold Radiant.build_main, bind, get_self, _run_tool.
  cbn [self files fh logs procs fst snd].
  destruct (tool_ok "radiantc" [name s +:+ ".tcl"]);
    [destruct (tool_ok "radiantc" [name s +:+ "_run.tcl"])|];
    cbn [self files fh logs procs fst snd]; rewrite <- ?app_assoc; reflexivity.
Qed.

(** X8: [build_main] runs [radiantc] on the project script and, only if
    that succeeded, on the run script; a failure is raised as the process
    error of the call that failed.  It writes no file and logs nothing, and
    [run_main] does nothing at all. *)
Theorem radiant_build_runs_both_scripts (s : Radiant) fs h lg ps :
  let c1 := ("radiantc", [name s +:+ ".tcl"]) in
  let c2 := ("radiantc", [name s +:+ "_run.tcl"]) in
  let r := build_main (mkSt s fs h lg ps) in
  procs (snd r) = ps ++ (if tool_ok (fst c1) (snd c1) then [c1; c2] else [c1]) /\
  fst r = (if tool_ok (fst c1) (snd c1)
           then if tool_ok (fst c2) (snd c2) then Ok tt
                else Raise (CalledProcessError (fst c2) (snd c2))
           else Raise (CalledProcessError (fst c1) (snd c1))) /\
  files (snd r) = fs /\ self (snd r) = s /\ logs (snd r) = lg /\
  run_main Value (mkSt s fs h lg ps) = (Ok tt, mkSt s fs h lg ps).
Proof.
  cbn zeta. rewrite radiant_build_run. cbn zeta. cbn [fst snd self files logs procs].
  repeat split; reflexivity.
Qed.

(** X9: after a configuration with the device given, every script
    [build_main] hands to [radiantc] is a file that exists under the work
    root. *)
Theorem radiant_build_finds_its_scripts (s : Radiant) fs h lg ps (part : Scalar) :
  members (tool_options s) !! "part" = Some part ->
  let st1 := snd (configure_main (mkSt s fs h lg ps)) in
  let st2 := snd (build_main st1) in
  exists new,
    procs st2 = ps ++ new /\
    forall cmd a arg,
      In (cmd, a) new -> In arg a ->
      is_Some (files st2 !! os_path_join (work_root s) arg).
Proof.
  intros Hpart. cbn zeta.
  rewrite (radiant_configure_run Value fmt _param_value_str get_file_type
             s fs h lg ps part Hpart).
  cbn [snd]. rewrite radiant_build_run. cbn zeta. cbn [snd files procs].
  eexists. split; [reflexivity|].
  intros cmd a arg Hin Ha.
  assert (Harg : arg = name s +:+ ".tcl" \/ arg = name s +:+ "_run.tcl").
  { cbn [fst snd] in Hin. destruct (tool_ok _ _); cbn [In] in Hin;
      repeat match goal with
        | H : _ \/ _ |- _ => destruct H
        | H : False |- _ => destruct H
        | H : (_, _) = (_, _) |- _ => inversion H; subst; clear H
        end; cbn [In] in Ha; intuition. }
  destruct Harg as [-> | ->].
  - fold (script_path s). rewrite lookup_insert_ne by apply script_paths_differ.
    rewrite lookup_insert_eq. eauto.
  - fold (run_script_path s). rewrite lookup_insert_eq. eauto.
Qed.

End More.

Lemma configure_without_part_witness :
  let s : Radiant string := mkRadiant "top" "build" "top" (mkToolOptions ∅ ∅) [] [] [] [] [] in
  let r := configure_main string id (fun v _ => v) File.file_type (mkSt s ∅ [] [] []) in
  fst r = Raise (KeyError "part") /\ files (snd r) = <[script_path s := []]> ∅.
Proof.
  cbn zeta.
  pose proof (configure_without_part string id (fun v _ => v) File.file_type
                (mkRadiant "top" "build" "top" (mkToolOptions ∅ ∅) [] [] [] [] [])
                ∅ [] [] [] eq_refl) as H.
  cbn zeta in H. destruct H as (H1 & H2 & _). split; [exact H1 | exact H2].
Defined.

Lemma one_warning_per_further_pdc_file_witness :
  let srcs := [File.mk "a.pdc" "PDC" ""; File.mk "top.v" "verilogSource" "";
               File.mk "b.pdc" "PDC" ""; File.mk "c.pdc" "PDC" ""] in
  let opts := mkToolOptions {[ "part" := SStr "LIFCL-40-9BG400C" ]} ∅ in
  let s : Radiant string := mkRadiant "top" "build" "top" opts [] [] [] srcs [] in
  logs (snd (configure_main string id (fun v _ => v) File.file_type (mkSt s ∅ [] [] [])))
  = [MULTIPLE_PDC; MULTIPLE_PDC].
Proof.
  apply (one_warning_per_further_pdc_file string id (fun v _ => v) File.file_type
           (mkRadiant "top" "build" "top"
              (mkToolOptions {[ "part" := SStr "LIFCL-40-9BG400C" ]} ∅) [] [] []
              [File.mk "a.pdc" "PDC" ""; File.mk "top.v" "verilogSource" "";
               File.mk "b.pdc" "PDC" ""; File.mk "c.pdc" "PDC" ""] [])
           ∅ [] [] [] (SStr "LIFCL-40-9BG400C")).
  - reflexivity.
  - repeat (apply Forall_cons_2; [reflexivity|]). apply Forall_nil_2.
Defined.

Lemma radiant_build_finds_its_scripts_witness :
  let opts := mkToolOptions {[ "part" := SStr "LIFCL-40-9BG400C" ]} ∅ in
  let s : Radiant string := mkRadiant "top" "build" "top" opts [] [] [] [] [] in
  let st1 := snd (configure_main string id (fun v _ => v) File.file_type (mkSt s ∅ [] [] [])) in
  let st2 := snd (build_main string (fun _ _ => true) st1) in
  exists new,
    procs st2 = [] ++ new /\
    forall cmd a arg,
      In (cmd, a) new -> In arg a -> is_Some (files st2 !! os_path_join "build" arg).
Proof.
  exact (radiant_build_finds_its_scripts string id (fun v _ => v) File.file_type
           (fun _ _ => true)
           (mkRadiant "top" "build" "top"
              (mkToolOptions {[ "part" := SStr "LIFCL-40-9BG400C" ]} ∅) [] [] [] [] [])
           ∅ [] [] [] (SStr "LIFCL-40-9BG400C") eq_refl).
Defined.

End RadiantMore.

(** ** Verilator *)

Module VerilatorMore.
Import Verilator VerilatorSpec VerilatorFacts VerilatorFiles Options.

Section More.
Variable Value : Type.
Variable _param_value_str : Value -> string -> string.
Variable tool_ok : string -> list string -> bool.

Abbreviation Verilator := (Verilator Value).
Abbreviation check_managed_parser := (check_managed_parser Value).
Abbreviation _write_config_files := (_write_config_files Value _param_value_str).
Abbreviation configure_main := (configure_main Value _param_value_str).
Abbreviation build_main := (build_main Value tool_ok).
Abbreviation run_main := (run_main Value _param_value_str tool_ok).
Abbreviation options_chunks := (options_chunks Value _param_value_str).
Abbreviation configured := (configured Value).
Abbreviation vc_chunks := (vc_chunks Value _param_value_str).
Abbreviation config_mk := (config_mk Value).
Abbreviation spawn := (spawn tool_ok).
Abbreviation runtime_args := (runtime_args Value _param_value_str).
Abbreviation configure_run := (verilator_configure_run Value _param_value_str).
Abbreviation write_run := (_write_config_files_run Value _param_value_str).
Abbreviation build_run := (build_main_run Value tool_ok).
Abbreviation run_run := (run_main_run Value _param_value_str tool_ok).
Abbreviation spawn_all_ok := (spawn_all_ok tool_ok).

(** X10: [configure_main] with an empty top level raises the error about the
    missing [top_module] parameter after the deprecation warning has been
    logged, and before anything is written: no file changes, no process is
    spawned and the backend's fields are unchanged. *)
Theorem configure_without_toplevel (s : Verilator) fs h lg ps :
  truthy (toplevel s) = false ->
  let r := configure_main (mkSt s fs h lg ps) in
  fst r = Raise (RuntimeError ("'" +:+ name s +:+ "' miss a mandatory parameter 'top_module'")) /\
  files (snd r) = fs /\ self (snd r) = s /\ procs (snd r) = ps /\
  In (WARNING, DEPRECATED) (logs (snd r)).
Proof.
  intros Ht. cbn zeta. rewrite configure_run. cbn zeta. rewrite Ht.
  cbn [fst snd files self procs logs]. repeat split.
  rewrite !in_app_iff. right. left. now left.
Qed.

Lemma mode_of_defaulted (o : ToolOptions) : mode_of (defaulted o) = mode_of o.
Proof. unfold mode_of at 1. now rewrite defaulted_mode. Qed.

Lemma vc_chunks_configured (s : Verilator) : vc_chunks (configured s) = vc_chunks s.
Proof.
  unfold VerilatorSpec.vc_chunks, VerilatorSpec.configured.
  rewrite (options_chunks_defaulted Value _param_value_str).
  cbn [tool_options set_tool_options]. now rewrite mode_of_defaulted.
Qed.

Lemma config_mk_configured (s : Verilator) : config_mk (configured s) = config_mk s.
Proof.
  unfold VerilatorSpec.config_mk, VerilatorSpec.configured.
  cbn [tool_options set_tool_options set_verilator_file toplevel name].
  now rewrite defaulted_lists.
Qed.

(** X11: [configure_main] touches at most the command file, the build file and
    the variables file, and spawns nothing; configuring again from the state
    it leaves gives the same outcome and the same files, also when the
    first pass defaulted the mode. *)
Theorem verilator_configure_overwrites (s : Verilator) fs h lg ps :
  let r := configure_main (mkSt s fs h lg ps) in
  procs (snd r) = ps /\
  (forall p, p <> vc_path s -> p <> makefile_path s -> p <> config_mk_path s ->
             files (snd r) !! p = fs !! p) /\
  fst (configure_main (snd r)) = fst r /\
  files (snd (configure_main (snd r))) = files (snd r).
Proof.
  cbn zeta. rewrite configure_run. cbn zeta.
  destruct (truthy (toplevel s)) eqn:Ht.
  - rewrite write_run.
    destruct (scalar_in (mode_of (tool_options s)) modes) eqn:Hm;
      cbn [fst snd files procs];
      rewrite configure_run; cbn zeta;
      change (toplevel (configured s)) with (toplevel s); rewrite Ht;
      rewrite write_run;
      change (tool_options (configured s)) with (defaulted (tool_options s));
      rewrite mode_of_defaulted, Hm; cbn [fst snd files procs].
    + split; [reflexivity|].
      split; [intros p H1 H2 H3; now rewrite !lookup_insert_ne|].
      split; [reflexivity|].
      rewrite vc_chunks_configured, config_mk_configured.
      change (vc_path (configured s)) with (vc_path s).
      change (makefile_path (configured s)) with (makefile_path s).
      change (config_mk_path (configured s)) with (config_mk_path s).
      apply map_eq. intros i. rewrite !lookup_insert.
      repeat case_decide; congruence.
    + split; [reflexivity|].
      split; [intros p H1 H2 H3; now rewrite !lookup_insert_ne|].
      split; [reflexivity|].
      change (vc_path (configured s)) with (vc_path s).
      now rewrite insert_insert_eq.
  - cbn [fst snd files procs]. rewrite configure_run. cbn zeta. rewrite Ht.
    cbn [fst snd files procs]. auto.
Qed.

Lemma vc_chunks_with_member (s : Verilator) (k : string) (v : Scalar) :
  k <> "mode" -> k <> "exe" ->
  vc_chunks (set_tool_options (with_member k v (tool_options s)) s) = vc_chunks s.
Proof.
  intros H1 H2.
  unfold VerilatorSpec.vc_chunks, VerilatorSpec.options_chunks, sorted_chunks, mode_of,
    exe_line, str_get, libs_chunks.
  cbn [tool_options set_tool_options with_member members lists incdirs src_files toplevel
         vlogparam vlogdefine].
  now rewrite !lookup_insert_ne by congruence.
Qed.

(** X12: the [cli_parser] option has no effect beyond the log.  Whatever its
    value, configuration returns the same outcome, files and processes, and
    the run the same outcome, processes and arguments, as without it;
    [check_managed_parser] logs its warning exactly when the value is not
    ["managed"]. *)
Theorem cli_parser_only_logs (s : Verilator) (v : Scalar) fs h lg ps :
  let s' := set_tool_options (with_member "cli_parser" v (tool_options s)) s in
  let c := configure_main (mkSt s fs h lg ps) in
  let c' := configure_main (mkSt s' fs h lg ps) in
  let r := run_main (mkSt s fs h lg ps) in
  let r' := run_main (mkSt s' fs h lg ps) in
  fst c' = fst c /\ files (snd c') = files (snd c) /\ procs (snd c') = procs (snd c) /\
  fst r' = fst r /\ procs (snd r') = procs (snd r) /\
  args (self (snd r')) = args (self (snd r)) /\
  logs (snd (check_managed_parser (mkSt s' fs h lg ps)))
  = lg ++ (if scalar_eq_str v "managed" then [] else [(WARNING, CLI_PARSER_DEPRECATED)]).
Proof.
  cbn zeta.
  assert (Hmode : mode_of (with_member "cli_parser" v (tool_options s))
                  = mode_of (tool_options s)).
  { unfold mode_of, with_member. cbn [members]. now rewrite lookup_insert_ne. }
  rewrite !configure_run, !run_run. cbn zeta.
  cbn [toplevel tool_options set_tool_options name].
  rewrite Hmode.
  change (runtime_args (set_tool_options (with_member "cli_parser" v (tool_options s)) s))
    with (runtime_args s).
  split; [|split; [|split]].
  1-3: destruct (truthy (toplevel s)); [|reflexivity];
       rewrite !write_run; cbn [tool_options set_tool_options]; rewrite Hmode;
       destruct (scalar_in _ modes); cbn [fst snd files procs]; try reflexivity.
  - rewrite vc_chunks_with_member by discriminate.
    reflexivity.
  - split; [now destruct (scalar_in _ no_run)|].
    split; [now destruct (scalar_in _ no_run)|].
    split; [now destruct (scalar_in _ no_run)|].
    rewrite (check_managed_parser_run Value). cbn [snd logs self tool_options set_tool_options].
    unfold managed_warning, with_member. cbn [members]. now rewrite lookup_insert_eq.
Qed.

Lemma str_in_three (x a b c : string) :
  str_in x [a; b; c] = true -> x = a \/ x = b \/ x = c.
Proof.
  unfold str_in. cbn [existsb]. rewrite !orb_true_iff, !String.eqb_eq.
  intuition discriminate.
Qed.

Lemma is_c_not_hdl (f : File.t) : is_c f = true -> is_hdl f = false.
Proof.
  unfold is_c, is_hdl. intros H. apply str_in_three in H as [-> | [-> | ->]]; reflexivity.
Qed.

Lemma is_vlt_not_hdl (f : File.t) : is_vlt f = true -> is_hdl f = false /\ is_c f = false.
Proof.
  unfold is_vlt, is_hdl, is_c. intros H. apply String.eqb_eq in H. rewrite H. now split.
Qed.

(** X13: the file loop of [_write_config_files] is three filters.  The
    configuration files are the names of the [vlt] files, the HDL files the
    names of the files whose type starts with a Verilog or SystemVerilog
    source type, the C files the names of the three C source types, each in
    the order of the file list and after what the lists held before; every
    other file is left out. *)
Theorem sort_files_filters (l : list File.t) (vlt vlog opt_c : list string) :
  sort_files l vlt vlog opt_c
  = (vlt ++ names_of is_vlt l, vlog ++ names_of is_hdl l, opt_c ++ names_of is_c l).
Proof.
  revert vlt vlog opt_c. induction l as [|f l IH]; intros vlt vlog opt_c.
  - unfold names_of. cbn. now rewrite !app_nil_r.
  - cbn [sort_files]. unfold names_of. cbn [List.filter].
    fold (is_hdl f). fold (is_c f). fold (is_vlt f).
    destruct (is_hdl f) eqn:Hh.
    + destruct (is_c f) eqn:Hc; [apply is_c_not_hdl in Hc; congruence|].
      destruct (is_vlt f) eqn:Hv; [apply is_vlt_not_hdl in Hv as [? ?]; congruence|].
      rewrite IH. unfold names_of. cbn [map]. now rewrite <- !app_assoc.
    + destruct (is_c f) eqn:Hc.
      * destruct (is_vlt f) eqn:Hv; [apply is_vlt_not_hdl in Hv as [? ?]; congruence|].
        rewrite IH. unfold names_of. cbn [map]. now rewrite <- !app_assoc.
      * destruct (is_vlt f) eqn:Hv.
        -- rewrite IH. unfold names_of. cbn [map]. now rewrite <- !app_assoc.
        -- destruct (String.eqb (File.file_type f) "user"); now rewrite IH.
Qed.

(** X14: [build_main] checks the mode before it calls [make]: with a mode
    outside the allowed set it raises the error that names the value, spawns
    no process and writes no file. *)
Theorem build_with_illegal_mode (s : Verilator) fs h lg ps (v : Scalar) :
  members (tool_options s) !! "mode" = Some v ->
  scalar_in v modes = false ->
  let r := build_main (mkSt s fs h lg ps) in
  fst r = Raise (ILLEGAL v) /\ procs (snd r) = ps /\ files (snd r) = fs.
Proof.
  intros Hv Hin. cbn zeta. rewrite build_run. cbn zeta.
  assert (Hm : mode_of (tool_options s) = v) by (unfold mode_of; now rewrite Hv).
  rewrite Hm, Hin. cbn [fst snd procs files]. auto.
Qed.

Lemma spawn_length (calls : list (string * list string)) :
  length (fst (spawn calls)) <= length calls.
Proof.
  induction calls as [|[c a] calls IH]; [cbn; lia|].
  cbn [VerilatorSpec.spawn]. destruct (tool_ok c a); [|cbn; lia].
  destruct (spawn calls). cbn [fst length] in *. lia.
Qed.

Lemma spawn_Forall (P : string * list string -> Prop) (calls : list (string * list string)) :
  Forall P calls -> Forall P (fst (spawn calls)).
Proof.
  induction 1 as [|[c a] calls Hc Hl IH]; [constructor|].
  cbn [VerilatorSpec.spawn]. destruct (tool_ok c a); [|repeat constructor; exact Hc].
  destruct (spawn calls). cbn [fst] in *. now constructor.
Qed.

Lemma build_calls_make (o : ToolOptions) :
  length (build_calls o) <= 4 /\ Forall (fun c => fst c = "make") (build_calls o).
Proof.
  unfold build_calls.
  destruct (negb _), (is_true o "gen-xml"), (is_true o "gen-dpi-hdr"),
    (is_true o "gen-preprocess"); cbn [app length]; split; try lia;
    repeat constructor.
Qed.

(** X15: neither [build_main] nor [run_main] writes a file.  [build_main]
    spawns at most four processes, all of them [make]; [run_main] spawns
    nothing or the one simulation binary, with the arguments it leaves in
    [args]. *)
Theorem build_and_run_write_nothing (s : Verilator) fs h lg ps :
  let b := build_main (mkSt s fs h lg ps) in
  let r := run_main (mkSt s fs h lg ps) in
  files (snd b) = fs /\ files (snd r) = fs /\
  (exists new, procs (snd b) = ps ++ new /\ length new <= 4 /\
               Forall (fun c => fst c = "make") new) /\
  (procs (snd r) = ps \/
   procs (snd r) = ps ++ [("./V" +:+ toplevel s, args (self (snd r)))]).
Proof.
  cbn zeta. rewrite build_run, run_run. cbn zeta.
  destruct (build_calls_make (tool_options s)) as [Hlen Hmake].
  split; [now destruct (scalar_in _ modes)|].
  split; [now destruct (scalar_in _ no_run)|].
  split.
  - destruct (scalar_in _ modes); cbn [snd procs].
    + eexists. split; [reflexivity|]. split.
      * pose proof (spawn_length (build_calls (tool_options s))). lia.
      * now apply spawn_Forall.
    + exists []. rewrite app_nil_r. repeat split; [cbn; lia | constructor].
  - destruct (scalar_in _ no_run); cbn [snd procs self args set_tool_options set_args];
      [now left | now right].
Qed.

(** X16: for an allowed mode other than ["none"], the first process of
    [build_main] is [make], with the mode as target when the mode is one of
    the build file's phony targets and with no target otherwise; when that
    call fails nothing further is spawned and its process error is raised. *)
Theorem build_first_runs_the_mode (s : Verilator) fs h lg ps :
  let mode := mode_of (tool_options s) in
  let target := if scalar_in mode phony then [py_str mode] else [] in
  scalar_in mode modes = true ->
  scalar_eq_str mode "none" = false ->
  let b := build_main (mkSt s fs h lg ps) in
  exists rest,
    procs (snd b) = ps ++ ("make", target) :: rest /\
    (tool_ok "make" target = false ->
     rest = [] /\ fst b = Raise (CalledProcessError "make" target)).
Proof.
  intros mode target Hm Hn. cbn zeta. rewrite build_run. cbn zeta.
  fold mode. rewrite Hm. unfold build_calls. fold mode. rewrite Hn. cbn [negb app].
  fold target. cbn [VerilatorSpec.spawn].
  destruct (tool_ok "make" target) eqn:Hok.
  - destruct (spawn _) as [l e]. cbn [fst snd procs]. exists l.
    split; [reflexivity | discriminate].
  - cbn [fst snd procs outcome_of]. exists []. split; [reflexivity | auto].
Qed.

(** X17: in mode ["none"] [build_main] skips the main [make] call.  What it
    spawns is, in this order, [make xml-only] if gen-xml reads as true,
    [make dpi-hdr-only] if gen-dpi-hdr does and [make preprocess-only] if
    gen-preprocess does, each only when the calls before it succeeded; with
    none of the three set it spawns nothing and returns normally. *)
Theorem build_in_mode_none (s : Verilator) fs h lg ps :
  members (tool_options s) !! "mode" = Some (SStr "none") ->
  let o := tool_options s in
  let b := build_main (mkSt s fs h lg ps) in
  let gen :=
    (if is_true o "gen-xml" then [("make", ["xml-only"])] else [])
    ++ (if is_true o "gen-dpi-hdr" then [("make", ["dpi-hdr-only"])] else [])
    ++ (if is_true o "gen-preprocess" then [("make", ["preprocess-only"])] else []) in
  procs (snd b) = ps ++ fst (spawn gen) /\
  fst b = outcome_of (snd (spawn gen)) /\
  (Forall (fun c => tool_ok (fst c) (snd c) = true) gen ->
   procs (snd b) = ps ++ gen /\ fst b = Ok tt) /\
  (is_true o "gen-xml" = false -> is_true o "gen-dpi-hdr" = false ->
   is_true o "gen-preprocess" = false -> procs (snd b) = ps /\ fst b = Ok tt).
Proof.
  intros Hmode o b gen. subst b. rewrite build_run. cbn zeta. fold o.
  assert (Hm : mode_of o = SStr "none") by (unfold mode_of; subst o; now rewrite Hmode).
  assert (Hcalls : build_calls o = gen) by (unfold build_calls; rewrite Hm; reflexivity).
  rewrite Hm, Hcalls. change (scalar_in (SStr "none") modes) with true. cbv iota.
  cbn [fst snd procs].
  split; [reflexivity|]. split; [reflexivity|]. split.
  - intros Hall. rewrite (spawn_all_ok gen Hall). cbn [fst snd outcome_of]. auto.
  - intros H1 H2 H3. subst gen. rewrite H1, H2, H3. cbn [app VerilatorSpec.spawn fst snd outcome_of].
    now rewrite app_nil_r.
Qed.

Lemma scalar_in_In (v : Scalar) (l : list string) :
  scalar_in v l = true -> exists m, v = SStr m /\ In m l.
Proof.
  unfold scalar_in. intros H. apply existsb_exists in H as (m & Hin & Heq).
  destruct v as [x|b]; [|discriminate]. apply String.eqb_eq in Heq. subst. eauto.
Qed.

Lemma config_mk_not_makefile (s : Verilator) : config_mk_path s <> makefile_path s.
Proof.
  unfold config_mk_path, makefile_path. intros E.
  apply os_path_join_inj in E; [discriminate E | reflexivity].
Qed.

(** What [build_main] can ask of [make]. *)
Lemma build_calls_have_rules (o : ToolOptions) :
  Forall (fun c => fst c = "make" /\
                   forall t, In t (snd c) -> In t (Makefile.targets MAKEFILE_TEMPLATE))
    (build_calls o).
Proof using Type.
  clear tool_ok.
  assert (Htargets : Makefile.targets MAKEFILE_TEMPLATE
                     = ["V$(TOP_MODULE)"; "V$(TOP_MODULE).mk"; ".PHONY"; "binary";
                        "dpi-hdr-only"; "lint-only"; "preprocess-only";
                        "V$(TOP_MODULE).i"; "xml-only"; "V$(TOP_MODULE).xml"])
    by (vm_compute; reflexivity).
  rewrite Htargets. unfold build_calls. rewrite !Forall_app. repeat split.
  - destruct (negb _); [|constructor]. apply Forall_cons_2; [|constructor].
    split; [reflexivity|]. cbn [snd]. intros t Ht.
    destruct (scalar_in (mode_of o) phony) eqn:Hp; [|destruct Ht].
    destruct Ht as [<-|[]]. apply scalar_in_In in Hp as (m & -> & Hm).
    cbn [py_str]. unfold phony in Hm. cbn [In] in *. intuition.
  - destruct (is_true o "gen-xml"); [|constructor]. apply Forall_cons_2; [|constructor].
    split; [reflexivity|]. cbn [snd In]. intuition.
  - destruct (is_true o "gen-dpi-hdr"); [|constructor]. apply Forall_cons_2; [|constructor].
    split; [reflexivity|]. cbn [snd In]. intuition.
  - destruct (is_true o "gen-preprocess"); [|constructor]. apply Forall_cons_2; [|constructor].
    split; [reflexivity|]. cbn [snd In]. intuition.
Qed.


Lemma no_run_is_legal (v : Scalar) :
  scalar_in v no_run = true -> scalar_in v modes = true.
Proof.
  intros H. apply scalar_in_In in H as (m & -> & Hm).
  unfold no_run in Hm. cbn [In] in Hm.
  destruct Hm as [<-|[<-|[<-|[<-|[]]]]]; reflexivity.
Qed.

(** X19: [run_main] does not check the mode.  With a mode outside the allowed
    set it still starts the simulation binary with the run-time arguments;
    the outcome is that of the process, and no file is written. *)
Theorem run_does_not_check_the_mode (s : Verilator) fs h lg ps (v : Scalar) :
  members (tool_options s) !! "mode" = Some v ->
  scalar_in v modes = false ->
  let r := run_main (mkSt s fs h lg ps) in
  let exe := "./V" +:+ toplevel s in
  procs (snd r) = ps ++ [(exe, runtime_args s)] /\
  fst r = (if tool_ok exe (runtime_args s)
           then Ok tt else Raise (CalledProcessError exe (runtime_args s))) /\
  files (snd r) = fs.
Proof.
  intros Hv Hin. cbn zeta. rewrite run_run. cbn zeta.
  assert (Hm : mode_of (tool_options s) = v) by (unfold mode_of; now rewrite Hv).
  rewrite Hm.
  destruct (scalar_in v no_run) eqn:Hn.
  - apply no_run_is_legal in Hn. congruence.
  - cbn [fst snd procs files]. auto.
Qed.

Lemma runtime_args_set (s : Verilator) (a : list string) (o : ToolOptions) :
  lists o = lists (tool_options s) ->
  runtime_args (set_tool_options o (set_args a s)) = runtime_args s.
Proof.
  intros Ho. unfold VerilatorSpec.runtime_args.
  cbn [tool_options set_tool_options set_args plusarg cmdlinearg]. now rewrite Ho.
Qed.

(** X20: [run_main] rebuilds [args] from scratch: what the field held before
    is dropped, and running a second time leaves the same arguments, not
    two copies of them. *)
Theorem run_rebuilds_args (s : Verilator) (a0 : list string) fs h lg ps :
  let r := run_main (mkSt (set_args a0 s) fs h lg ps) in
  args (self (snd r)) = runtime_args s /\
  args (self (snd (run_main (snd r)))) = runtime_args s.
Proof.
  cbn zeta.
  assert (Hone : forall (s1 : Verilator) fs1 h1 lg1 ps1,
             self (snd (run_main (mkSt s1 fs1 h1 lg1 ps1)))
             = set_tool_options (defaulted (tool_options s1))
                 (set_args (runtime_args s1) s1)).
  { intros. rewrite run_run. cbn zeta. now destruct (scalar_in _ no_run). }
  assert (H0 : runtime_args (set_args a0 s) = runtime_args s) by reflexivity.
  split.
  - rewrite Hone, H0. reflexivity.
  - destruct (run_main (mkSt (set_args a0 s) fs h lg ps)) as [x [s1 fs1 h1 lg1 ps1]] eqn:E.
    pose proof (Hone (set_args a0 s) fs h lg ps) as H1. rewrite E in H1.
    cbn [snd self] in H1. cbn [snd]. rewrite Hone. cbn [self args set_tool_options set_args].
    subst s1. rewrite (runtime_args_set (set_args a0 s)); [exact H0|].
    apply defaulted_lists.
Qed.

(** The calls that were spawned all succeeded exactly when no error came
    out; otherwise the last one spawned is the one that failed. *)
Lemma spawn_outcome (calls : list (string * list string)) :
  (snd (spawn calls) = None <->
   Forall (fun c => tool_ok (fst c) (snd c) = true) (fst (spawn calls))) /\
  (snd (spawn calls) <> None ->
   exists c, last (fst (spawn calls)) = Some c /\ tool_ok (fst c) (snd c) = false).
Proof.
  induction calls as [|[c a] calls [IH1 IH2]]; [split; [split; auto | intros H; now destruct H]|].
  cbn [VerilatorSpec.spawn]. destruct (tool_ok c a) eqn:Hok.
  - destruct (spawn calls) as [l e] eqn:E. cbn [fst snd] in *. split.
    + rewrite IH1. split; [intros H; now apply Forall_cons_2 | intros H; now inversion H].
    + intros He. destruct (IH2 He) as (c' & Hlast & Hc'). exists c'. split; [|exact Hc'].
      destruct l as [|x l]; [discriminate Hlast|]. rewrite last_cons, Hlast. reflexivity.
  - cbn [fst snd]. split.
    + split; [discriminate|]. intros H. inversion H as [|? ? Hx _]; subst.
      cbn [fst snd] in Hx. congruence.
    + intros _. exists (c, a). split; [reflexivity | exact Hok].
Qed.

Lemma outcome_of_ok (e : option PyError) : outcome_of e = Ok tt <-> e = None.
Proof. destruct e; split; intros H; try discriminate; reflexivity. Qed.

(** X21: when [configure_main] has returned normally, the mode stored in the
    options is an allowed one and [build_main] on the resulting state gets
    past its mode check: for a mode other than ["none"] it spawns the mode's
    [make] call first, it returns normally exactly when every process it
    spawned succeeded, and when it does not the last process it spawned is
    one that failed. *)
Theorem build_after_configure (s : Verilator) fs h lg ps :
  fst (configure_main (mkSt s fs h lg ps)) = Ok tt ->
  let st1 := snd (configure_main (mkSt s fs h lg ps)) in
  let b := build_main st1 in
  members (tool_options (self st1)) !! "mode" = Some (mode_of (tool_options s)) /\
  scalar_in (mode_of (tool_options s)) modes = true /\
  exists new,
    procs (snd b) = procs st1 ++ new /\
    (fst b = Ok tt <-> Forall (fun c => tool_ok (fst c) (snd c) = true) new) /\
    (fst b <> Ok tt ->
     exists c, last new = Some c /\ tool_ok (fst c) (snd c) = false) /\
    (scalar_eq_str (mode_of (tool_options s)) "none" = false ->
     exists rest, new = ("make", if scalar_in (mode_of (tool_options s)) phony
                                 then [py_str (mode_of (tool_options s))] else []) :: rest).
Proof.
  intros Hok. cbn zeta. rewrite configure_run in *. cbn zeta in *.
  destruct (truthy (toplevel s)); [|discriminate Hok].
  rewrite write_run in *.
  destruct (scalar_in (mode_of (tool_options s)) modes) eqn:Hm; [|discriminate Hok].
  cbn [snd self procs]. split; [|split; [reflexivity|]].
  - unfold VerilatorSpec.configured. cbn [tool_options set_tool_options].
    rewrite defaulted_mode. reflexivity.
  - rewrite build_run. cbn zeta.
    assert (Hc : tool_options (configured s) = defaulted (tool_options s)) by reflexivity.
    rewrite Hc, mode_of_defaulted, Hm. cbn [fst snd procs].
    set (calls := build_calls (defaulted (tool_options s))).
    destruct (spawn_outcome calls) as [H1 H2].
    eexists. split; [reflexivity|]. split; [|split].
    + rewrite outcome_of_ok. exact H1.
    + intros Hne. apply H2. intros E. apply Hne. now apply outcome_of_ok.
    + intros Hnone. subst calls. unfold build_calls. rewrite mode_of_defaulted, Hnone.
      cbn [negb app VerilatorSpec.spawn].
      destruct (tool_ok "make" _); [|cbn [fst]; now exists []].
      match goal with |- context [spawn ?x] => destruct (spawn x) as [l e] end.
      cbn [fst]. now exists l.
Qed.

(** X22: for each of the list options [libs], [verilator_options],
    [make_options] and [run_options], leaving the option out is the same as
    giving the empty list: configuration yields the same outcome, files and
    log, and the run the same outcome, processes and arguments. *)
Theorem missing_list_is_empty (s : Verilator) (k : string) fs h lg ps :
  In k ["libs"; "verilator_options"; "make_options"; "run_options"] ->
  lists (tool_options s) !! k = None ->
  let s' := set_tool_options (with_list k [] (tool_options s)) s in
  let c := configure_main (mkSt s fs h lg ps) in
  let c' := configure_main (mkSt s' fs h lg ps) in
  let r := run_main (mkSt s fs h lg ps) in
  let r' := run_main (mkSt s' fs h lg ps) in
  fst c' = fst c /\ files (snd c') = files (snd c) /\ logs (snd c') = logs (snd c) /\
  fst r' = fst r /\ procs (snd r') = procs (snd r) /\
  args (self (snd r')) = args (self (snd r)).
Proof.
  intros Hk Hnone. cbn zeta.
  set (s' := set_tool_options (with_list k [] (tool_options s)) s).
  assert (Hvc : vc_chunks s' = vc_chunks s).
  { unfold VerilatorSpec.vc_chunks, VerilatorSpec.options_chunks, sorted_chunks, mode_of,
      exe_line, str_get, libs_chunks.
    cbn [s' tool_options set_tool_options with_list members lists incdirs src_files toplevel
           vlogparam vlogdefine].
    destruct Hk as [<-|[<-|[<-|[<-|[]]]]];
      rewrite ?lookup_insert_eq, ?lookup_insert_ne by discriminate;
      rewrite ?Hnone; reflexivity. }
  assert (Hmk : config_mk s' = config_mk s).
  { unfold VerilatorSpec.config_mk.
    cbn [s' tool_options set_tool_options with_list members lists toplevel name].
    destruct Hk as [<-|[<-|[<-|[<-|[]]]]];
      rewrite ?lookup_insert_eq, ?lookup_insert_ne by discriminate;
      rewrite ?Hnone; reflexivity. }
  assert (Hra : runtime_args s' = runtime_args s).
  { unfold VerilatorSpec.runtime_args.
    cbn [s' tool_options set_tool_options with_list members lists plusarg cmdlinearg].
    destruct Hk as [<-|[<-|[<-|[<-|[]]]]];
      rewrite ?lookup_insert_eq, ?lookup_insert_ne by discriminate;
      rewrite ?Hnone; reflexivity. }
  assert (Hpath : vc_path s' = vc_path s /\ makefile_path s' = makefile_path s
                  /\ config_mk_path s' = config_mk_path s) by (repeat split; reflexivity).
  destruct Hpath as (Hp1 & Hp2 & Hp3).
  assert (Hmode : mode_of (tool_options s') = mode_of (tool_options s)) by reflexivity.
  assert (Hwarn : managed_warning (tool_options s') = managed_warning (tool_options s))
    by reflexivity.
  assert (Htop : toplevel s' = toplevel s) by reflexivity.
  assert (Hname : name s' = name s) by reflexivity.
  rewrite !configure_run, !run_run. cbn zeta.
  rewrite Hmode, Hwarn, Htop, Hname, Hra.
  split; [|split; [|split]].
  - destruct (truthy (toplevel s)); [|reflexivity]. rewrite !write_run, Hmode.
    now destruct (scalar_in _ modes).
  - destruct (truthy (toplevel s)); [|reflexivity]. rewrite !write_run, Hmode.
    destruct (scalar_in _ modes); cbn [snd files]; rewrite ?Hp1, ?Hp2, ?Hp3, ?Hvc, ?Hmk;
      reflexivity.
  - destruct (truthy (toplevel s)); [|reflexivity]. rewrite !write_run, Hmode.
    now destruct (scalar_in _ modes).
  - destruct (scalar_in _ no_run); cbn [fst snd procs self args set_tool_options set_args];
      auto.
Qed.

End More.

Lemma configure_without_toplevel_witness :
  let s : Verilator string :=
    mkVerilator "design" "build" "" (mkToolOptions ∅ ∅) [] [] [] [] [] [] [] None in
  let r := configure_main string (fun v _ => v) (mkSt s ∅ [] [] []) in
  fst r = Raise (RuntimeError "'design' miss a mandatory parameter 'top_module'") /\
  files (snd r) = ∅.
Proof.
  cbn zeta.
  pose proof (configure_without_toplevel string (fun v _ => v)
                (mkVerilator "design" "build" "" (mkToolOptions ∅ ∅)
                   [] [] [] [] [] [] [] None)
                ∅ [] [] [] eq_refl) as H.
  cbn zeta in H. destruct H as (H1 & H2 & _). split; [exact H1 | exact H2].
Defined.

Lemma build_with_illegal_mode_witness :
  let opts := mkToolOptions {[ "mode" := SStr "fast" ]} ∅ in
  let s : Verilator string :=
    mkVerilator "top" "build" "top" opts [] [] [] [] [] [] [] None in
  let r := build_main string (fun _ _ => true) (mkSt s ∅ [] [] []) in
  fst r = Raise (ILLEGAL (SStr "fast")) /\ procs (snd r) = [] /\ files (snd r) = ∅.
Proof.
  exact (build_with_illegal_mode string (fun _ _ => true)
           (mkVerilator "top" "build" "top"
              (mkToolOptions {[ "mode" := SStr "fast" ]} ∅)
              [] [] [] [] [] [] [] None)
           ∅ [] [] [] (SStr "fast") eq_refl eq_refl).
Defined.

Lemma build_first_runs_the_mode_witness :
  let opts := mkToolOptions {[ "mode" := SStr "lint-only" ]} ∅ in
  let s : Verilator string :=
    mkVerilator "top" "build" "top" opts [] [] [] [] [] [] [] None in
  let b := build_main string (fun _ _ => false) (mkSt s ∅ [] [] []) in
  exists rest,
    procs (snd b) = [] ++ ("make", ["lint-only"]) :: rest /\
    ((fun _ _ => false) "make" ["lint-only"] = false ->
     rest = [] /\ fst b = Raise (CalledProcessError "make" ["lint-only"])).
Proof.
  exact (build_first_runs_the_mode string (fun _ _ => false)
           (mkVerilator "top" "build" "top"
              (mkToolOptions {[ "mode" := SStr "lint-only" ]} ∅)
              [] [] [] [] [] [] [] None)
           ∅ [] [] [] eq_refl eq_refl).
Defined.

Lemma build_in_mode_none_witness :
  let opts := mkToolOptions {[ "mode" := SStr "none"; "gen-xml" := SBool true ]} ∅ in
  let s : Verilator string :=
    mkVerilator "top" "build" "top" opts [] [] [] [] [] [] [] None in
  let b := build_main string (fun _ _ => true) (mkSt s ∅ [] [] []) in
  procs (snd b) = [("make", ["xml-only"])] /\ fst b = Ok tt.
Proof.
  cbn zeta.
  pose proof (build_in_mode_none string (fun _ _ => true)
                (mkVerilator "top" "build" "top"
                   (mkToolOptions {[ "mode" := SStr "none"; "gen-xml" := SBool true ]} ∅)
                   [] [] [] [] [] [] [] None)
                ∅ [] [] [] eq_refl) as H.
  cbn zeta in H. destruct H as (_ & _ & Hall & _).
  apply Hall. repeat (apply Forall_cons_2; [reflexivity|]). apply Forall_nil_2.
Defined.


Lemma run_does_not_check_the_mode_witness :
  let opts := mkToolOptions {[ "mode" := SStr "fast" ]} ∅ in
  let s : Verilator string :=
    mkVerilator "top" "build" "top" opts [] [] [("seed", "1")] [] [] [] [] None in
  let r := run_main string (fun v _ => v) (fun _ _ => true) (mkSt s ∅ [] [] []) in
  procs (snd r) = [("./Vtop", ["+seed=1"])] /\ fst r = Ok tt /\ files (snd r) = ∅.
Proof.
  exact (run_does_not_check_the_mode string (fun v _ => v) (fun _ _ => true)
           (mkVerilator "top" "build" "top"
              (mkToolOptions {[ "mode" := SStr "fast" ]} ∅)
              [] [] [("seed", "1")] [] [] [] [] None)
           ∅ [] [] [] (SStr "fast") eq_refl eq_refl).
Defined.

Lemma build_after_configure_witness :
  let s : Verilator string :=
    mkVerilator "top" "build" "top" (mkToolOptions ∅ ∅) [] [] [] []
      [File.mk "top.v" "verilogSource" ""] [] [] None in
  let st1 := snd (configure_main string (fun v _ => v) (mkSt s ∅ [] [] [])) in
  let b := build_main string (fun _ _ => true) st1 in
  members (tool_options (self st1)) !! "mode" = Some (SStr "cc") /\
  procs (snd b) = [("make", [])] /\ fst b = Ok tt.
Proof.
  cbn zeta.
  pose proof (build_after_configure string (fun v _ => v) (fun _ _ => true)
                (mkVerilator "top" "build" "top" (mkToolOptions ∅ ∅) [] [] [] []
                   [File.mk "top.v" "verilogSource" ""] [] [] None)
                ∅ [] [] [] eq_refl) as H.
  cbn zeta in H. destruct H as (H1 & _ & _).
  split; [exact H1|]. split; vm_compute; reflexivity.
Defined.

Lemma missing_list_is_empty_witness :
  let s : Verilator string :=
    mkVerilator "top" "build" "top" (mkToolOptions ∅ ∅) [] [] [] []
      [File.mk "top.v" "verilogSource" ""] [] [] None in
  let s' := set_tool_options (with_list "libs" [] (tool_options s)) s in
  let c := configure_main string (fun v _ => v) (mkSt s ∅ [] [] []) in
  let c' := configure_main string (fun v _ => v) (mkSt s' ∅ [] [] []) in
  fst c' = fst c /\ files (snd c') = files (snd c).
Proof.
  cbn zeta.
  pose proof (missing_list_is_empty string (fun v _ => v) (fun _ _ => true)
                (mkVerilator "top" "build" "top" (mkToolOptions ∅ ∅) [] [] [] []
                   [File.mk "top.v" "verilogSource" ""] [] [] None)
                "libs" ∅ [] [] [] (or_introl eq_refl) eq_refl) as H.
  cbn zeta in H. destruct H as (H1 & H2 & _). split; [exact H1 | exact H2].
Defined.

End VerilatorMore.
